(** * ag.py: a command-line assistant around a chat-completion API

    Shallow embedding of [src/ag.py].  The program is sequencing code
    around three external services (an OCR reader, a chat-completion
    client and the terminal); the embedding keeps the program's own
    control flow and data, and takes the behaviour of the services from
    a [world] record.  Every effect the program performs is recorded, in
    order, in a trace of events. *)

From Stdlib Require Import String Ascii List Bool Arith Lia.
Import ListNotations.
Local Open Scope list_scope.
Local Open Scope string_scope.

(** ** Python strings *)

Module PyString.

(** The newline character of the source's ["\n"]. *)
Definition nl : string := String (ascii_of_nat 10) EmptyString.

(** A [str] is kept as the bytes of its UTF-8 encoding, so a character
    is one to four bytes.  [byte_in ks c]: the byte [c] is one of [ks]. *)
Definition byte_in (ks : list nat) (c : ascii) : bool :=
  existsb (Nat.eqb (nat_of_ascii c)) ks.

(** The white space of [str.strip] and [str.isspace], by the length of
    its encoding.  One byte: U+0009-U+000D, U+001C-U+001F and the space
    U+0020. *)
Definition space1 (c : ascii) : bool :=
  byte_in [9; 10; 11; 12; 13; 28; 29; 30; 31; 32] c.

(** Two bytes: U+0085 (C2 85) and U+00A0 (C2 A0). *)
Definition space2 (c1 c2 : ascii) : bool :=
  byte_in [194] c1 && byte_in [133; 160] c2.

(** Three bytes: U+1680 (E1 9A 80), U+2000-U+200A (E2 80 80 to E2 80 8A),
    U+2028, U+2029 and U+202F (E2 80 A8, A9, AF), U+205F (E2 81 9F) and
    U+3000 (E3 80 80). *)
Definition space3 (c1 c2 c3 : ascii) : bool :=
  (byte_in [225] c1 && byte_in [154] c2 && byte_in [128] c3)
  || (byte_in [226] c1 && byte_in [128] c2
      && byte_in [128; 129; 130; 131; 132; 133; 134; 135; 136; 137; 138;
                  168; 169; 175] c3)
  || (byte_in [226] c1 && byte_in [129] c2 && byte_in [159] c3)
  || (byte_in [227] c1 && byte_in [128] c2 && byte_in [128] c3).

(** [str.lstrip()]: white-space characters are dropped from the front
    until another character, or the end, is met. *)
Fixpoint lstrip (s : string) : string :=
  match s with
  | EmptyString => EmptyString
  | String c1 s1 =>
      if space1 c1 then lstrip s1
      else
        match s1 with
        | EmptyString => s
        | String c2 s2 =>
            if space2 c1 c2 then lstrip s2
            else
              match s2 with
              | EmptyString => s
              | String c3 s3 => if space3 c1 c2 c3 then lstrip s3 else s
              end
        end
  end.

(** The text is empty or white space only ([s.strip() == '']). *)
Definition all_space (s : string) : bool :=
  match lstrip s with
  | EmptyString => true
  | String _ _ => false
  end.

(** [str.rstrip()]: the text is cut where what follows is white space
    only.  (A byte inside a character never begins white space, so the
    cut falls between characters.) *)
Fixpoint rstrip (s : string) : string :=
  match s with
  | EmptyString => EmptyString
  | String c s' => if all_space s then EmptyString else String c (rstrip s')
  end.

(** [str.strip()] *)
Definition strip (s : string) : string := rstrip (lstrip s).

(** A byte that continues a character of several bytes (10xxxxxx), and
    a text that does not begin with one. *)
Definition continuation (c : ascii) : bool :=
  ((128 <=? nat_of_ascii c) && (nat_of_ascii c <? 192))%nat.

Definition head_ok (s : string) : bool :=
  match s with
  | EmptyString => true
  | String c _ => negb (continuation c)
  end.

(** [str.lower()] on one character: the letters A-Z. *)
Definition lower_ascii (c : ascii) : ascii :=
  let n := nat_of_ascii c in
  if ((65 <=? n) && (n <=? 90))%nat then ascii_of_nat (n + 32) else c.

(** [str.lower()], as far as the program needs it: the result is only
    compared with the keywords [exit], [quit] and [q].  The letters A-Z
    are lowered and every other byte is kept; no character outside A-Z
    lower-cases to one of the keywords' letters (U+0130 becomes [i]
    followed by U+0307, U+212A becomes [k]), so the comparison comes out
    as in Python for every text. *)
Fixpoint lower (s : string) : string :=
  match s with
  | EmptyString => EmptyString
  | String c s' => String (lower_ascii c) (lower s')
  end.

(** [sep.join(parts)] *)
Fixpoint join (sep : string) (parts : list string) : string :=
  match parts with
  | [] => ""
  | [p] => p
  | p :: ps => p ++ sep ++ join sep ps
  end.

(** [s * n] *)
Fixpoint times (s : string) (n : nat) : string :=
  match n with
  | O => ""
  | S n' => s ++ times s n'
  end.

(** [x in xs] for a list of strings. *)
Definition mem (x : string) (xs : list string) : bool :=
  existsb (String.eqb x) xs.

End PyString.
Import PyString.

(** ** Python values

    The variables of the program that hold more than one Python type:
    [args.query] and [contents] are [None] or a [str], [args.stream] is
    [True] or a [str], a message's content is a [str] or [None]. *)

Inductive pyval : Type :=
| PyNone
| PyBool (b : bool)
| PyStr (s : string).

(** Truth value testing ([if x:], [not x]). *)
Definition truthy (v : pyval) : bool :=
  match v with
  | PyNone => false
  | PyBool b => b
  | PyStr s => negb (s =? "")
  end.

(** [str(x)], also the conversion of an f-string field [{x}]. *)
Definition py_str (v : pyval) : string :=
  match v with
  | PyNone => "None"
  | PyBool true => "True"
  | PyBool false => "False"
  | PyStr s => s
  end.

(** [a == b]; values of different types are unequal. *)
Definition py_eqb (a b : pyval) : bool :=
  match a, b with
  | PyNone, PyNone => true
  | PyBool x, PyBool y => Bool.eqb x y
  | PyStr x, PyStr y => x =? y
  | _, _ => false
  end.

Definition of_option (o : option string) : pyval :=
  match o with
  | None => PyNone
  | Some s => PyStr s
  end.

(** ** Exceptions

    [KeyboardInterrupt] and [SystemExit] derive from [BaseException] and
    are not caught by [except Exception]; every other exception the
    program meets is an [Exception], kept with its [str(e)]. *)

Inductive exn : Type :=
| Exception (msg : string)
| KeyboardInterrupt
| SystemExit (code : nat).

Inductive outcome (A : Type) : Type :=
| Return (a : A)
| Raise (e : exn).
Arguments Return {A} a.
Arguments Raise {A} e.

(** ** The data the chat-completion client exchanges *)

(** [{"role": r, "content": c}] *)
Record message : Type := Message { role : string; content : pyval }.

(** A streamed chunk: [chunk.choices[i].delta.content]. *)
Record choice_delta : Type := { delta_content : option string }.
Record chunk_choice : Type := { delta : choice_delta }.
Record chunk : Type := { chunk_choices : list chunk_choice }.

(** A whole completion: [response.choices[i].message.content]. *)
Record completion_message : Type := { message_content : option string }.
Record choice : Type := { message_of : completion_message }.

(** What [client.chat.completions.create] hands back: an iterable of
    chunks or one completion object. *)
Inductive response : Type :=
| Stream (chunks : list chunk)
| Completion (choices : list choice).

(** One recognised text of [reader.readtext]: [result[1]]; the bounding
    box [result[0]] and the confidence [result[2]] are never read. *)
Record ocr_result : Type := { result_text : string }.

(** ** Effects *)

Inductive event : Type :=
| Stdout (text : string)
| Stderr (text : string)
| Markdown (text : string)
| Request (api_key : string) (messages : list message)
          (model : string) (stream : pyval).

Definition trace := list event.

(** The services the program calls. *)
Record world : Type := {
  (** [os.getenv("DEEPSEEK_API_KEY")] *)
  getenv_DEEPSEEK_API_KEY : option string;
  (** [client.chat.completions.create(model=, messages=, stream=)] *)
  create : list message -> string -> pyval -> outcome response;
  (** [os.get_terminal_size().columns]; raises [OSError] when standard
      output is not a terminal. *)
  get_terminal_size_columns : outcome nat;
  (** [sys.stdin.isatty()] *)
  stdin_isatty : bool;
  (** [sys.stdin.read()] *)
  stdin_read : string;
  (** [sys.stdin.buffer.read()] *)
  stdin_buffer_read : list ascii;
  (** [easyocr.Reader(['ch_sim', 'en'])] *)
  easyocr_Reader : outcome unit;
  (** [reader.readtext(image_input)] *)
  readtext : list ascii -> outcome (list ocr_result)
}.

(** A computation: the events it performs and how it ends. *)
Definition M (A : Type) : Type := trace * outcome A.

Definition ret {A} (a : A) : M A := ([], Return a).

Definition bind {A B} (m : M A) (f : A -> M B) : M B :=
  match m with
  | (t, Return a) => let (t', r) := f a in ((t ++ t')%list, r)
  | (t, Raise e) => (t, Raise e)
  end.

Definition raise {A} (e : exn) : M A := ([], Raise e).

Definition emit (e : event) : M unit := ([e], Return tt).

Definition lift {A} (o : outcome A) : M A := ([], o).

Declare Scope py_scope.
Delimit Scope py_scope with py.
Notation "x <- m ;; k" := (bind m (fun x => k))
  (at level 61, m at next level, right associativity) : py_scope.
Notation "m ;; k" := (bind m (fun _ => k))
  (at level 61, right associativity) : py_scope.
Local Open Scope py_scope.

(** [print(s)] and [print(s, file=sys.stderr)]: the text and a newline. *)
Definition print (s : string) : M unit := emit (Stdout (s ++ nl)).
Definition print_stderr (s : string) : M unit := emit (Stderr (s ++ nl)).

(** [sys.exit(code)] *)
Definition sys_exit {A} (code : nat) : M A := raise (SystemExit code).

(** ** The program *)

(** [display_markdown_with_rich]: the console renders the Markdown. *)
Definition display_markdown_with_rich (markdown_string : string) : M unit :=
  emit (Markdown markdown_string).

(** [ocr]: the reader is built outside the [try]; inside it the texts
    are joined and stripped, and an [Exception] is reported and turned
    into [None]. *)
Definition ocr (w : world) (image_input : list ascii) : M pyval :=
  _ <- lift (easyocr_Reader w) ;;
  match readtext w image_input with
  | Return results =>
      let texts := map result_text results in
      ret (PyStr (strip (join nl texts)))
  | Raise (Exception msg) =>
      print_stderr ("OCR 错误: " ++ msg) ;;
      ret PyNone
  | Raise e => raise e
  end.

(** [get_client]: the credential, or the diagnostic and exit status 1. *)
Definition get_client (w : world) : M string :=
  let api_key := of_option (getenv_DEEPSEEK_API_KEY w) in
  if negb (truthy api_key) then
    print_stderr "Failed to find API key." ;;
    sys_exit 1
  else ret (py_str api_key).

(** [call_deepseek] *)
Definition call_deepseek (w : world) (messages : list message)
    (model : string) (stream : pyval) : M response :=
  client <- get_client w ;;
  emit (Request client messages model stream) ;;
  lift (create w messages model stream).

(** The [for] loop of [print_response]: a chunk adds its first choice's
    content when it has a choice and that content is truthy. *)
Definition add_chunk (full_response : string) (c : chunk) : string :=
  match chunk_choices c with
  | [] => full_response
  | ch :: _ =>
      if truthy (of_option (delta_content (delta ch)))
      then full_response ++ py_str (of_option (delta_content (delta ch)))
      else full_response
  end.

Definition accumulate (chunks : list chunk) : string :=
  fold_left add_chunk chunks "".

(** Iterating over a completion object yields tuples, which have no
    [choices]; a stream object has no [choices] either. *)
Definition iterate (r : response) : M (list chunk) :=
  match r with
  | Stream chunks => ret chunks
  | Completion _ =>
      raise (Exception "'tuple' object has no attribute 'choices'")
  end.

(** [response.choices[0].message.content] *)
Definition first_message_content (r : response) : M pyval :=
  match r with
  | Completion (c :: _) => ret (of_option (message_content (message_of c)))
  | Completion [] => raise (Exception "list index out of range")
  | Stream _ => raise (Exception "'Stream' object has no attribute 'choices'")
  end.

(** [print_response] *)
Definition print_response (w : world) (r : response) (model : string)
    (stream : pyval) : M pyval :=
  print ("Model(" ++ model ++ "):" ++ nl) ;;
  if truthy stream then
    chunks <- iterate r ;;
    let full_response := accumulate chunks in
    display_markdown_with_rich full_response ;;
    columns <- lift (get_terminal_size_columns w) ;;
    print (times "=" columns) ;;
    ret (PyStr full_response)
  else
    shown <- first_message_content r ;;
    print ("    " ++ py_str shown) ;;
    columns <- lift (get_terminal_size_columns w) ;;
    print (times "=" columns) ;;
    full_response <- first_message_content r ;;
    ret full_response.

(** The instruction text of [query_mode], a triple-quoted literal. *)
Definition professional_prompt : string :=
  nl ++
  "    Please answer my question with your output formatted in strict Markdown syntax, ensuring " ++ nl ++
  "    it's directly compatible with Glow for display. Keep concise. Determine your language " ++ nl ++
  "    according to my question. Please do not use bold or italian." ++ nl ++
  "    Try not use titles (e.g., #)." ++ nl ++
  "    My question is:" ++ nl ++
  "    ".

(** The value [query_mode] keeps in [original_prompt]: the query with
    its context, or the query alone when [contents] equals [""]. *)
Definition original_prompt (query : string) (contents : pyval)
    (image : bool) : string :=
  if negb (py_eqb contents (PyStr "")) then
    if image then
      "This is ocr result of the image:" ++ nl ++ nl ++ py_str contents
        ++ nl ++ nl ++ "Question:" ++ query
    else
      "Please answer the question based on this text:" ++ nl ++ nl
        ++ py_str contents ++ nl ++ nl ++ "Question:" ++ query
  else query.

(** The final value of [prompt] in [query_mode]. *)
Definition prompt (query : string) (contents : pyval) (image : bool) : string :=
  professional_prompt ++ original_prompt query contents image.

Definition model_name (deep : bool) : string :=
  if deep then "deepseek-reasoner" else "deepseek-chat".

(** [query_mode] *)
Definition query_mode (w : world) (query : string) (contents : pyval)
    (image deep : bool) (stream : pyval) : M unit :=
  let model := model_name deep in
  let messages := [Message "user" (PyStr (prompt query contents image))] in
  r <- call_deepseek w messages model stream ;;
  _ <- print_response w r model stream ;;
  ret tt.

(** ** Chat mode *)

(** What one call of [input] does: it returns a line (without the
    newline) or raises ([KeyboardInterrupt] on an interrupt signal,
    [EOFError] at the end of the input). *)
Inductive input_event : Type :=
| InputLine (line : string)
| InputRaise (e : exn).

Inductive control : Type := Break | Continue.

Definition system_prompt : string :=
  "Please give precise and crispy answers. Faster is better.".

Definition exit_keywords : list string := ["exit"; "quit"; "q"].

(** The text [input] writes before it reads. *)
Definition input_prompt : string := nl ++ "User" ++ nl.

Definition exit_hint : string := "Type 'exit', 'quit', or 'q' to exit.".

(** The body of the [try] in the loop of [chat_mode].  [messages] is a
    list the body appends to in place, so what was appended before an
    exception stays appended. *)
Definition chat_body (w : world) (model : string) (stream : pyval)
    (messages : list message) (ev : input_event)
    : trace * (list message * outcome control) :=
  match ev with
  | InputRaise e => ([Stdout input_prompt], (messages, Raise e))
  | InputLine line =>
      let user_input := strip line in
      if mem (lower user_input) exit_keywords then
        ([Stdout input_prompt], (messages, Return Break))
      else
        let messages1 := (messages ++ [Message "user" (PyStr user_input)])%list in
        match call_deepseek w messages1 model stream with
        | (t1, Raise e) => (Stdout input_prompt :: t1, (messages1, Raise e))
        | (t1, Return r) =>
            match print_response w r model stream with
            | (t2, Raise e) =>
                (Stdout input_prompt :: (t1 ++ t2)%list, (messages1, Raise e))
            | (t2, Return reply) =>
                (Stdout input_prompt :: (t1 ++ t2)%list,
                 ((messages1 ++ [Message "assistant" reply])%list,
                  Return Continue))
            end
        end
  end.

(** One iteration of the loop: the body under its two handlers. *)
Definition chat_turn (w : world) (model : string) (stream : pyval)
    (messages : list message) (ev : input_event)
    : trace * (list message * outcome control) :=
  match chat_body w model stream messages ev with
  | (t, (ms, Raise KeyboardInterrupt)) =>
      ((t ++ [Stdout (nl ++ exit_hint ++ nl)])%list, (ms, Return Continue))
  | (t, (ms, Raise (Exception msg))) =>
      ((t ++ [Stderr ("Error: " ++ msg ++ nl)])%list, (ms, Return Continue))
  | r => r
  end.

(** How a run of the loop over the inputs supplied so far stands. *)
Inductive chat_end : Type :=
| Exited                (* [break]: [chat_mode] returns *)
| Awaiting              (* at the head of the loop, about to call [input] *)
| Escaped (e : exn).    (* an exception left the loop *)

(** [while True:] over the calls of [input] the run makes. *)
Fixpoint chat_loop (w : world) (model : string) (stream : pyval)
    (inputs : list input_event) (messages : list message)
    : trace * (list message * chat_end) :=
  match inputs with
  | [] => ([], (messages, Awaiting))
  | ev :: rest =>
      match chat_turn w model stream messages ev with
      | (t, (ms, Return Break)) => (t, (ms, Exited))
      | (t, (ms, Return Continue)) =>
          let (t', r) := chat_loop w model stream rest ms in
          ((t ++ t')%list, r)
      | (t, (ms, Raise e)) => (t, (ms, Escaped e))
      end
  end.

Definition chat_banner : trace :=
  [Stdout ("Entering chat mode. Type 'exit', 'quit', or 'q' to exit." ++ nl);
   Stdout ("--------------------------------------" ++ nl)].

(** [chat_mode] *)
Definition chat_mode (w : world) (deep : bool) (stream : pyval)
    (inputs : list input_event) : trace * (list message * chat_end) :=
  let model := model_name deep in
  let messages := [Message "system" (PyStr system_prompt)] in
  let (t, r) := chat_loop w model stream inputs messages in
  ((chat_banner ++ t)%list, r).

(** ** The command line *)

(** The namespace [parse_args] returns. *)
Record Namespace : Type := {
  args_query : pyval;
  args_image : bool;
  args_deep : bool;
  args_chat : bool;
  args_stream : pyval
}.

(** One option occurrence on the command line, as [argparse] recognises
    it: [-q] with or without a value, [-i], [-d], [-c], [-s VALUE]. *)
Inductive cli_option : Type :=
| OptQuery (value : option string)
| OptImage
| OptDeep
| OptChat
| OptStream (value : string).

(** The defaults of the five [add_argument] calls. *)
Definition default_args : Namespace :=
  {| args_query := PyNone; args_image := false; args_deep := false;
     args_chat := false; args_stream := PyBool true |}.

(** The action of one option: [nargs='?'] with [const=''] for the
    query, [store_true] for the flags, [store] for the stream value. *)
Definition apply_option (a : Namespace) (o : cli_option) : Namespace :=
  match o with
  | OptQuery None =>
      {| args_query := PyStr ""; args_image := args_image a;
         args_deep := args_deep a; args_chat := args_chat a;
         args_stream := args_stream a |}
  | OptQuery (Some s) =>
      {| args_query := PyStr s; args_image := args_image a;
         args_deep := args_deep a; args_chat := args_chat a;
         args_stream := args_stream a |}
  | OptImage =>
      {| args_query := args_query a; args_image := true;
         args_deep := args_deep a; args_chat := args_chat a;
         args_stream := args_stream a |}
  | OptDeep =>
      {| args_query := args_query a; args_image := args_image a;
         args_deep := true; args_chat := args_chat a;
         args_stream := args_stream a |}
  | OptChat =>
      {| args_query := args_query a; args_image := args_image a;
         args_deep := args_deep a; args_chat := true;
         args_stream := args_stream a |}
  | OptStream s =>
      {| args_query := args_query a; args_image := args_image a;
         args_deep := args_deep a; args_chat := args_chat a;
         args_stream := PyStr s |}
  end.

Definition parse_args (argv : list cli_option) : Namespace :=
  fold_left apply_option argv default_args.

(** How [main] stands after the inputs supplied so far. *)
Inductive status : Type :=
| Finished (o : outcome unit)
| Blocked.

Definition status_of_chat (e : chat_end) : status :=
  match e with
  | Exited => Finished (Return tt)
  | Awaiting => Blocked
  | Escaped x => Finished (Raise x)
  end.

(** The part of [main] that reads the standard input. *)
Definition read_contents (w : world) (args : Namespace) : M pyval :=
  if negb (stdin_isatty w) then
    if args_image args then ocr w (stdin_buffer_read w)
    else ret (PyStr (strip (stdin_read w)))
  else ret (PyStr "").

(** The part of [main] after [contents] is known. *)
Definition answer_query (w : world) (args : Namespace) (contents : pyval)
    : M unit :=
  if truthy (args_query args) then
    let query := args_query args in
    if negb (truthy query) then
      print_stderr "Error: Please provide a query." ;;
      sys_exit 1
    else
      query_mode w (py_str query) contents (args_image args) (args_deep args)
        (args_stream args)
  else ret tt.

(** [main] *)
Definition main (w : world) (argv : list cli_option)
    (inputs : list input_event) : trace * status :=
  let args := parse_args argv in
  if args_chat args then
    let (t, r) := chat_mode w (args_deep args) (args_stream args) inputs in
    (t, status_of_chat (snd r))
  else
    let (t, o) := (contents <- read_contents w args ;;
                   answer_query w args contents) in
    (t, Finished o).


(** ** Vocabulary of the specification *)

(** The text a chunk carries, in the words of the specification: the
    content of its (first) choice, nothing when there is none. *)
Definition chunk_text (c : chunk) : string :=
  match chunk_choices c with
  | [] => ""
  | ch :: _ =>
      match delta_content (delta ch) with
      | Some s => s
      | None => ""
      end
  end.

(** The concatenation of the chunks' texts in delivery order. *)
Definition concat_chunks (chunks : list chunk) : string :=
  join "" (map chunk_text chunks).

(** [needle] occurs in [hay]. *)
Definition occurs_in (needle hay : string) : Prop :=
  exists pre post, hay = pre ++ needle ++ post.

(** The requests a trace contains, in order. *)
Fixpoint requests (t : trace) : list (list message) :=
  match t with
  | [] => []
  | Request _ messages _ _ :: t' => messages :: requests t'
  | _ :: t' => requests t'
  end.

(** The texts a trace writes to the error stream, in order. *)
Fixpoint diagnostics (t : trace) : list string :=
  match t with
  | [] => []
  | Stderr text :: t' => text :: diagnostics t'
  | _ :: t' => diagnostics t'
  end.

(** The value of the last [-s] on a command line, if there is one. *)
Definition last_stream_value (argv : list cli_option) : option string :=
  fold_left (fun acc o => match o with OptStream s => Some s | _ => acc end)
    argv None.

(** Every line is a turn whose body runs to its end: no [break], no
    exception. *)
Fixpoint turns_complete (w : world) (model : string) (stream : pyval)
    (lines : list string) (messages : list message) : bool :=
  match lines with
  | [] => true
  | line :: rest =>
      match chat_body w model stream messages (InputLine line) with
      | (_, (ms, Return Continue)) => turns_complete w model stream rest ms
      | _ => false
      end
  end.

(** The messages of a list of turns, each a user text and a reply. *)
Fixpoint dialogue (turns : list (string * pyval)) : list message :=
  match turns with
  | [] => []
  | (u, r) :: rest =>
      Message "user" (PyStr u) :: Message "assistant" r :: dialogue rest
  end.

(** The message lists the turns send, starting from [history]: each
    request carries the history so far and the user's new text. *)
Fixpoint sent (history : list message) (turns : list (string * pyval))
    : list (list message) :=
  match turns with
  | [] => []
  | (u, r) :: rest =>
      (history ++ [Message "user" (PyStr u)])%list
        :: sent (history ++ [Message "user" (PyStr u); Message "assistant" r])%list
             rest
  end.

(** ** Scenarios *)

Module Scenario.

Definition text_chunk (s : string) : chunk :=
  {| chunk_choices := [ {| delta := {| delta_content := Some s |} |} ] |}.

(** A stream as the service sends it: a role-only first chunk, two
    text chunks and a final chunk without choices. *)
Definition hello_chunks : list chunk :=
  [ {| chunk_choices := [ {| delta := {| delta_content := None |} |} ] |};
    text_chunk "Hel"; text_chunk "lo";
    {| chunk_choices := [] |} ].

(** A configured credential, a terminal four columns wide, a service
    that answers every request with [hello_chunks], nothing piped. *)
Definition online : world :=
  {| getenv_DEEPSEEK_API_KEY := Some "sk-test";
     create := fun _ _ _ => Return (Stream hello_chunks);
     get_terminal_size_columns := Return 4;
     stdin_isatty := true;
     stdin_read := "";
     stdin_buffer_read := [];
     easyocr_Reader := Return tt;
     readtext := fun _ => Return [] |}.

(** The same without the credential. *)
Definition no_credential : world :=
  {| getenv_DEEPSEEK_API_KEY := None;
     create := create online;
     get_terminal_size_columns := get_terminal_size_columns online;
     stdin_isatty := true;
     stdin_read := "";
     stdin_buffer_read := [];
     easyocr_Reader := Return tt;
     readtext := readtext online |}.

(** The service refuses every request. *)
Definition service_down : world :=
  {| getenv_DEEPSEEK_API_KEY := Some "sk-test";
     create := fun _ _ _ => Raise (Exception "Connection error.");
     get_terminal_size_columns := Return 4;
     stdin_isatty := true;
     stdin_read := "";
     stdin_buffer_read := [];
     easyocr_Reader := Return tt;
     readtext := readtext online |}.

(** An image is piped in and the reader fails on it. *)
Definition unreadable_image : world :=
  {| getenv_DEEPSEEK_API_KEY := Some "sk-test";
     create := create online;
     get_terminal_size_columns := Return 4;
     stdin_isatty := false;
     stdin_read := "";
     stdin_buffer_read := [ascii_of_nat 137; ascii_of_nat 80];
     easyocr_Reader := Return tt;
     readtext := fun _ => Raise (Exception "cannot identify image") |}.

(** A text is piped in. *)
Definition piped_text : world :=
  {| getenv_DEEPSEEK_API_KEY := Some "sk-test";
     create := create online;
     get_terminal_size_columns := Return 4;
     stdin_isatty := false;
     stdin_read := "  the sky is blue" ++ nl;
     stdin_buffer_read := [];
     easyocr_Reader := Return tt;
     readtext := readtext online |}.

End Scenario.

(** ** Further vocabulary *)

(** What a turn of the chat loop leaves in the history: the user's text
    alone when the turn failed after the append, the text and the reply
    when it ran to its end. *)
Definition render_turn (turn : string * option pyval) : list message :=
  match turn with
  | (u, None) => [Message "user" (PyStr u)]
  | (u, Some r) => [Message "user" (PyStr u); Message "assistant" r]
  end.

(** A call of [input] that raises what the loop's handlers catch. *)
Definition caught_at_prompt (ev : input_event) : bool :=
  match ev with
  | InputRaise (Exception _) => true
  | InputRaise KeyboardInterrupt => true
  | _ => false
  end.

(** The texts a trace writes to the standard output, and the texts it
    renders as Markdown, in order. *)
Fixpoint stdout_texts (t : trace) : list string :=
  match t with
  | [] => []
  | Stdout text :: t' => text :: stdout_texts t'
  | _ :: t' => stdout_texts t'
  end.

Fixpoint rendered (t : trace) : list string :=
  match t with
  | [] => []
  | Markdown text :: t' => text :: rendered t'
  | _ :: t' => rendered t'
  end.

(** The event is no request, or a request made with this credential,
    model and stream value. *)
Definition request_with (key model : string) (stream : pyval) (e : event)
    : Prop :=
  match e with
  | Request k _ m s => k = key /\ m = model /\ s = stream
  | _ => True
  end.

(** Two worlds with the same credential, the same completion service and
    the same terminal: they may differ in the standard input and in the
    OCR reader. *)
Definition same_service (w1 w2 : world) : Prop :=
  getenv_DEEPSEEK_API_KEY w1 = getenv_DEEPSEEK_API_KEY w2 /\
  (forall messages model stream,
     create w1 messages model stream = create w2 messages model stream) /\
  get_terminal_size_columns w1 = get_terminal_size_columns w2.


(** ** Further scenarios *)

Module Edge.

(** Only white space is piped in. *)
Definition blank_pipe : world :=
  {| getenv_DEEPSEEK_API_KEY := Some "sk-test";
     create := create Scenario.online;
     get_terminal_size_columns := Return 4;
     stdin_isatty := false;
     stdin_read := " 　" ++ nl ++ " ";
     stdin_buffer_read := [];
     easyocr_Reader := Return tt;
     readtext := readtext Scenario.online |}.

(** An image is piped in on which the reader recognises blanks only. *)
Definition blank_image : world :=
  {| getenv_DEEPSEEK_API_KEY := Some "sk-test";
     create := create Scenario.online;
     get_terminal_size_columns := Return 4;
     stdin_isatty := false;
     stdin_read := "";
     stdin_buffer_read := [ascii_of_nat 137; ascii_of_nat 80];
     easyocr_Reader := Return tt;
     readtext := fun _ => Return [ {| result_text := "　" |};
                                   {| result_text := "" |} ] |}.

(** An image is piped in and the reader cannot be built. *)
Definition reader_broken : world :=
  {| getenv_DEEPSEEK_API_KEY := Some "sk-test";
     create := create Scenario.online;
     get_terminal_size_columns := Return 4;
     stdin_isatty := false;
     stdin_read := "";
     stdin_buffer_read := [ascii_of_nat 137; ascii_of_nat 80];
     easyocr_Reader := Raise (Exception "model files missing");
     readtext := readtext Scenario.online |}.

(** The standard output is not a terminal. *)
Definition no_terminal : world :=
  {| getenv_DEEPSEEK_API_KEY := Some "sk-test";
     create := create Scenario.online;
     get_terminal_size_columns :=
       Raise (Exception "[Errno 25] Inappropriate ioctl for device");
     stdin_isatty := true;
     stdin_read := "";
     stdin_buffer_read := [];
     easyocr_Reader := Return tt;
     readtext := readtext Scenario.online |}.

(** The credential variable is set to the empty string. *)
Definition empty_key : world :=
  {| getenv_DEEPSEEK_API_KEY := Some "";
     create := create Scenario.online;
     get_terminal_size_columns := Return 4;
     stdin_isatty := true;
     stdin_read := "";
     stdin_buffer_read := [];
     easyocr_Reader := Return tt;
     readtext := readtext Scenario.online |}.

(** The user interrupts every request. *)
Definition interrupted : world :=
  {| getenv_DEEPSEEK_API_KEY := Some "sk-test";
     create := fun _ _ _ => Raise KeyboardInterrupt;
     get_terminal_size_columns := Return 4;
     stdin_isatty := true;
     stdin_read := "";
     stdin_buffer_read := [];
     easyocr_Reader := Return tt;
     readtext := readtext Scenario.online |}.

Definition whole_choice (c : option string) : choice :=
  {| message_of := {| message_content := c |} |}.

(** The service answers with whole completions. *)
Definition whole (c : option string) : world :=
  {| getenv_DEEPSEEK_API_KEY := Some "sk-test";
     create := fun _ _ _ => Return (Completion [whole_choice c]);
     get_terminal_size_columns := Return 4;
     stdin_isatty := true;
     stdin_read := "";
     stdin_buffer_read := [];
     easyocr_Reader := Return tt;
     readtext := readtext Scenario.online |}.

(** An image is piped in on which the reader recognises two texts. *)
Definition readable_image : world :=
  {| getenv_DEEPSEEK_API_KEY := Some "sk-test";
     create := create Scenario.online;
     get_terminal_size_columns := Return 4;
     stdin_isatty := false;
     stdin_read := "";
     stdin_buffer_read := [ascii_of_nat 137; ascii_of_nat 80];
     easyocr_Reader := Return tt;
     readtext := fun _ => Return [ {| result_text := " Total" |};
                                   {| result_text := "42 " |} ] |}.

End Edge.

(** A call of [input] after which the loop goes on to send: a line that
    is no exit keyword. *)
Definition is_sent (ev : input_event) : bool :=
  match ev with
  | InputLine line => negb (mem (lower (strip line)) exit_keywords)
  | InputRaise _ => false
  end.

(** What the handler of [Exception] writes for the calls of [input]
    that raise one. *)
Definition prompt_diagnostics (inputs : list input_event) : list string :=
  flat_map (fun ev => match ev with
                      | InputRaise (Exception msg) => ["Error: " ++ msg ++ nl]
                      | _ => []
                      end) inputs.

(** Two namespaces that differ at most in the [-i] flag. *)
Definition same_but_image (a b : Namespace) : Prop :=
  args_query a = args_query b /\ args_deep a = args_deep b /\
  args_chat a = args_chat b /\ args_stream a = args_stream b.

(** The option is [-c]. *)
Definition is_chat_option (o : cli_option) : bool :=
  match o with
  | OptChat => true
  | _ => false
  end.

(** The reply a turn gets for the request it sends: what
    [print_response] returns for the response of [call_deepseek], if
    both return. *)
Definition reply_of (w : world) (model : string) (stream : pyval)
    (request : list message) : option pyval :=
  match call_deepseek w request model stream with
  | (_, Return r) =>
      match print_response w r model stream with
      | (_, Return reply) => Some reply
      | (_, Raise _) => None
      end
  | (_, Raise _) => None
  end.

(** The replies of the turns are those the renderer returned: each is
    the reply to the request that carries the history so far and the
    user's text of the turn. *)
Fixpoint answered (w : world) (model : string) (stream : pyval)
    (history : list message) (turns : list (string * pyval)) : Prop :=
  match turns with
  | [] => True
  | (u, r) :: rest =>
      reply_of w model stream (history ++ [Message "user" (PyStr u)])%list
        = Some r /\
      answered w model stream
        (history ++ [Message "user" (PyStr u); Message "assistant" r])%list
        rest
  end.

(** The texts the loop goes on to send for these calls of [input]: the
    stripped lines that are no exit keyword. *)
Definition sent_texts (inputs : list input_event) : list string :=
  flat_map (fun ev => match ev with
                      | InputLine line =>
                          if mem (lower (strip line)) exit_keywords then []
                          else [strip line]
                      | InputRaise _ => []
                      end) inputs.

(** The history after the user's texts have been sent in turn: each
    text is appended, and after it the reply when the turn got one. *)
Fixpoint conversation (w : world) (model : string) (stream : pyval)
    (history : list message) (texts : list string) : list message :=
  match texts with
  | [] => history
  | u :: rest =>
      let request := (history ++ [Message "user" (PyStr u)])%list in
      match reply_of w model stream request with
      | Some r =>
          conversation w model stream
            (request ++ [Message "assistant" r])%list rest
      | None => conversation w model stream request rest
      end
  end.

(** The message lists requested for these texts: each is the
    conversation up to the turn followed by the user's text. *)
Fixpoint asked (w : world) (model : string) (stream : pyval)
    (history : list message) (texts : list string) : list (list message) :=
  match texts with
  | [] => []
  | u :: rest =>
      (history ++ [Message "user" (PyStr u)])%list
        :: asked w model stream (conversation w model stream history [u]) rest
  end.

(** * Properties *)

(** ** Strings and the monad *)

Lemma append_nil_r (s : string) : s ++ "" = s.
Proof. induction s as [|c s IH]; simpl; [reflexivity | now rewrite IH]. Qed.

Lemma append_assoc (a b c : string) : (a ++ b) ++ c = a ++ (b ++ c).
Proof. induction a as [|x a IH]; simpl; [reflexivity | now rewrite IH]. Qed.

Lemma truthy_PyStr (s : string) : truthy (PyStr s) = false <-> s = "".
Proof.
  simpl. destruct (String.eqb_spec s ""); simpl; split; congruence.
Qed.

Lemma bind_Return {A B} (t : trace) (a : A) (f : A -> M B) :
  bind (t, Return a) f = ((t ++ fst (f a))%list, snd (f a)).
Proof. unfold bind. now destruct (f a). Qed.

Lemma bind_Raise {A B} (t : trace) (e : exn) (f : A -> M B) :
  bind (t, Raise e) f = (t, Raise e).
Proof. reflexivity. Qed.

(** ** The response renderer *)

Lemma join_empty_cons (p : string) (ps : list string) :
  join "" (p :: ps) = p ++ join "" ps.
Proof. destruct ps; simpl; [now rewrite append_nil_r | reflexivity]. Qed.

Lemma add_chunk_text (acc : string) (c : chunk) :
  add_chunk acc c = acc ++ chunk_text c.
Proof.
  unfold add_chunk, chunk_text.
  destruct (chunk_choices c) as [|ch rest].
  - now rewrite append_nil_r.
  - destruct (delta_content (delta ch)) as [s|]; simpl.
    + destruct (String.eqb_spec s "") as [->|_]; simpl;
        [now rewrite append_nil_r | reflexivity].
    + now rewrite append_nil_r.
Qed.

Lemma fold_add_chunk (chunks : list chunk) (acc : string) :
  fold_left add_chunk chunks acc = acc ++ concat_chunks chunks.
Proof.
  revert acc. induction chunks as [|c chunks IH]; intro acc.
  - simpl. now rewrite append_nil_r.
  - cbn [fold_left]. rewrite IH, add_chunk_text.
    unfold concat_chunks. cbn [map]. rewrite join_empty_cons.
    now rewrite append_assoc.
Qed.

Lemma accumulate_concat (chunks : list chunk) :
  accumulate chunks = concat_chunks chunks.
Proof. unfold accumulate. now rewrite fold_add_chunk. Qed.

(** C6, as the code has it.  On the streaming path the text the renderer
    accumulates is the concatenation of the chunks' texts in delivery
    order, and that text is what it renders.  The terminal width is read
    after the rendering: when it can be read the accumulated text is
    what the renderer returns to its caller, and when reading it raises,
    the exception leaves the renderer and nothing is returned. *)
Theorem print_response_stream_concat :
  forall (w : world) (model : string) (stream : pyval)
         (chunks : list chunk),
    truthy stream = true ->
    accumulate chunks = concat_chunks chunks /\
    rendered (fst (print_response w (Stream chunks) model stream)) =
      [concat_chunks chunks] /\
    print_response w (Stream chunks) model stream =
      match get_terminal_size_columns w with
      | Return columns =>
          ([Stdout (("Model(" ++ model ++ "):" ++ nl) ++ nl);
            Markdown (concat_chunks chunks);
            Stdout (times "=" columns ++ nl)],
           Return (PyStr (concat_chunks chunks)))
      | Raise e =>
          ([Stdout (("Model(" ++ model ++ "):" ++ nl) ++ nl);
            Markdown (concat_chunks chunks)],
           Raise e)
      end.
Proof.
  intros w model stream chunks Hs.
  split; [apply accumulate_concat|].
  unfold print_response. rewrite Hs. cbn [iterate bind print emit ret].
  rewrite accumulate_concat.
  destruct (get_terminal_size_columns w) as [columns|e]; cbn; now split.
Qed.

Lemma print_response_stream_concat_witness :
  rendered (fst (print_response Scenario.online (Stream Scenario.hello_chunks)
                   "deepseek-chat" (PyBool true))) = ["Hello"] /\
  print_response Scenario.online (Stream Scenario.hello_chunks)
    "deepseek-chat" (PyBool true) =
  ([Stdout (("Model(" ++ "deepseek-chat" ++ "):" ++ nl) ++ nl);
    Markdown "Hello"; Stdout ("====" ++ nl)],
   Return (PyStr "Hello")).
Proof.
  exact (proj2 (print_response_stream_concat Scenario.online "deepseek-chat"
                  (PyBool true) Scenario.hello_chunks eq_refl)).
Defined.

(** C6, as stated, fails: when the standard output is no terminal the
    renderer accumulates and renders the text of the chunks but returns
    nothing to its caller; an exception leaves it instead. *)
Lemma print_response_stream_without_return :
  exists e,
    print_response Edge.no_terminal (Stream Scenario.hello_chunks)
      "deepseek-chat" (PyBool true) =
      ([Stdout (("Model(" ++ "deepseek-chat" ++ "):" ++ nl) ++ nl);
        Markdown "Hello"], Raise e) /\
    forall reply,
      snd (print_response Edge.no_terminal (Stream Scenario.hello_chunks)
             "deepseek-chat" (PyBool true)) <> Return reply.
Proof.
  exists (Exception "[Errno 25] Inappropriate ioctl for device").
  split; [reflexivity|]. intros reply. vm_compute. discriminate.
Qed.

(** ** The prompt of the single-shot mode *)

Lemma call_deepseek_configured (w : world) (key : string)
    (messages : list message) (model : string) (stream : pyval) :
  getenv_DEEPSEEK_API_KEY w = Some key -> key <> "" ->
  call_deepseek w messages model stream =
    ([Request key messages model stream], create w messages model stream).
Proof.
  intros Hk Hne. unfold call_deepseek, get_client. rewrite Hk. simpl.
  apply String.eqb_neq in Hne. rewrite Hne. simpl.
  now destruct (create w messages model stream).
Qed.

Lemma query_mode_request (w : world) (key query : string) (contents : pyval)
    (image deep : bool) (stream : pyval) :
  getenv_DEEPSEEK_API_KEY w = Some key -> key <> "" ->
  exists t o,
    query_mode w query contents image deep stream =
      (Request key [Message "user" (PyStr (prompt query contents image))]
         (model_name deep) stream :: t, o).
Proof.
  intros Hk Hne. unfold query_mode.
  rewrite (call_deepseek_configured w key _ _ _ Hk Hne).
  destruct (create w _ (model_name deep) stream) as [r|e].
  - rewrite bind_Return. cbn [app]. eauto.
  - rewrite bind_Raise. eauto.
Qed.

Lemma original_prompt_context (query c : string) (image : bool) :
  c <> "" ->
  original_prompt query (PyStr c) image =
    (if image then "This is ocr result of the image"
     else "Please answer the question based on this text")
    ++ (":" ++ nl ++ nl) ++ c ++ (nl ++ nl ++ "Question:") ++ query.
Proof.
  intro Hc. unfold original_prompt. cbn [py_eqb py_str].
  apply String.eqb_neq in Hc. rewrite Hc. now destruct image.
Qed.

(** C1, as the code has it.  Without context the query is not wrapped in
    a context clause; the prompt sent to the inference client is the
    fixed instruction text followed by the raw query. *)
Theorem query_without_context_prompt :
  forall (w : world) (key query : string) (image deep : bool)
         (stream : pyval),
    getenv_DEEPSEEK_API_KEY w = Some key -> key <> "" ->
    original_prompt query (PyStr "") image = query /\
    exists t o,
      query_mode w query (PyStr "") image deep stream =
        (Request key [Message "user" (PyStr (professional_prompt ++ query))]
           (model_name deep) stream :: t, o).
Proof.
  intros w key query image deep stream Hk Hne.
  split; [reflexivity|].
  exact (query_mode_request w key query (PyStr "") image deep stream Hk Hne).
Qed.

Lemma query_without_context_prompt_witness :
  original_prompt "hi" (PyStr "") false = "hi" /\
  exists t o,
    query_mode Scenario.online "hi" (PyStr "") false false (PyBool true) =
      (Request "sk-test" [Message "user" (PyStr (professional_prompt ++ "hi"))]
         (model_name false) (PyBool true) :: t, o).
Proof.
  apply (query_without_context_prompt Scenario.online "sk-test" "hi"
           false false (PyBool true)); [reflexivity | discriminate].
Defined.

(** C1, as stated, fails: [ag -q hi] on a terminal sends one request
    whose only message is not the raw query. *)
Lemma query_without_context_not_verbatim :
  exists sent,
    requests (fst (main Scenario.online [OptQuery (Some "hi")] [])) =
      [[Message "user" (PyStr sent)]] /\
    sent <> "hi".
Proof.
  exists (professional_prompt ++ "hi"). split.
  - vm_compute. reflexivity.
  - vm_compute. discriminate.
Qed.

(** C9.  With a non-empty context the constructed prompt carries
    ["Please answer the question based on this text"] followed by the
    content and the question when the context is piped text, and
    ["This is ocr result of the image"] when it comes from an image;
    that prompt is the one message of the request. *)
Theorem query_with_context_prompt :
  forall (w : world) (key query c : string) (deep : bool) (stream : pyval),
    c <> "" ->
    getenv_DEEPSEEK_API_KEY w = Some key -> key <> "" ->
    prompt query (PyStr c) false =
      professional_prompt
        ++ "Please answer the question based on this text"
        ++ (":" ++ nl ++ nl) ++ c ++ (nl ++ nl ++ "Question:") ++ query /\
    prompt query (PyStr c) true =
      professional_prompt
        ++ "This is ocr result of the image"
        ++ (":" ++ nl ++ nl) ++ c ++ (nl ++ nl ++ "Question:") ++ query /\
    occurs_in "Please answer the question based on this text"
      (prompt query (PyStr c) false) /\
    occurs_in "This is ocr result of the image"
      (prompt query (PyStr c) true) /\
    forall image, exists t o,
      query_mode w query (PyStr c) image deep stream =
        (Request key [Message "user" (PyStr (prompt query (PyStr c) image))]
           (model_name deep) stream :: t, o).
Proof.
  intros w key query c deep stream Hc Hk Hne.
  assert (Ht := original_prompt_context query c false Hc).
  assert (Hi := original_prompt_context query c true Hc).
  cbv beta iota in Ht, Hi. unfold prompt. rewrite Ht, Hi.
  repeat split.
  - now exists professional_prompt,
      ((":" ++ nl ++ nl) ++ c ++ (nl ++ nl ++ "Question:") ++ query).
  - now exists professional_prompt,
      ((":" ++ nl ++ nl) ++ c ++ (nl ++ nl ++ "Question:") ++ query).
  - intro image.
    destruct (query_mode_request w key query (PyStr c) image deep stream
                Hk Hne) as (t & o & E).
    exists t, o. rewrite E. unfold prompt.
    destruct image; [now rewrite Hi | now rewrite Ht].
Qed.

Lemma query_with_context_prompt_witness :
  occurs_in "Please answer the question based on this text"
    (prompt "what colour?" (PyStr "the sky is blue") false) /\
  occurs_in "This is ocr result of the image"
    (prompt "what colour?" (PyStr "the sky is blue") true).
Proof.
  destruct (query_with_context_prompt Scenario.piped_text "sk-test"
              "what colour?" "the sky is blue" false (PyBool true))
    as (_ & _ & Ht & Hi & _);
    [discriminate | reflexivity | discriminate |].
  exact (conj Ht Hi).
Defined.

(** ** The OCR adapter *)

Lemma ocr_failure (w : world) (image_input : list ascii) (msg : string) :
  easyocr_Reader w = Return tt ->
  readtext w image_input = Raise (Exception msg) ->
  ocr w image_input = ([Stderr (("OCR 错误: " ++ msg) ++ nl)], Return PyNone).
Proof. intros Hr Ht. unfold ocr. now rewrite Hr, Ht. Qed.

Lemma original_prompt_None (query : string) :
  original_prompt query PyNone true =
    "This is ocr result of the image:" ++ nl ++ nl ++ "None" ++ nl ++ nl
      ++ "Question:" ++ query.
Proof. reflexivity. Qed.

(** C2, on the code.  [ag -i -q "what is this?"] with a piped image the
    reader fails on: the failure is reported on the error stream and no
    exception leaves [main], but the context that reaches the prompt is
    [None], which differs from [""], so the request carries the image
    clause around the text [None]. *)
Theorem ocr_failure_reaches_prompt :
  let run := main Scenario.unreadable_image
               [OptImage; OptQuery (Some "what is this?")] [] in
  diagnostics (fst run) = [("OCR 错误: " ++ "cannot identify image") ++ nl] /\
  requests (fst run) =
    [[Message "user"
        (PyStr (professional_prompt ++ "This is ocr result of the image:"
                  ++ nl ++ nl ++ "None" ++ nl ++ nl
                  ++ "Question:" ++ "what is this?"))]] /\
  snd run = Finished (Return tt) /\
  requests (fst run) <>
    [[Message "user" (PyStr (professional_prompt ++ "what is this?"))]].
Proof.
  cbv zeta. repeat split; try (vm_compute; reflexivity).
  vm_compute. discriminate.
Qed.

(** ** The command line *)

(** C3, on the code.  [-q] without a value (or with an empty one) stores
    [''], the outer test [if args.query:] fails, and [main] returns
    without a diagnostic and without an exit status: the inner test that
    prints the diagnostic and exits is never reached. *)
Theorem empty_query_is_silent :
  forall (w : world) (inputs : list input_event),
    main w [OptQuery None] inputs = ([], Finished (Return tt)) /\
    main w [OptQuery (Some "")] inputs = ([], Finished (Return tt)).
Proof.
  intros w inputs. unfold main, read_contents, answer_query. cbn.
  destruct (stdin_isatty w); split; reflexivity.
Qed.

Lemma args_stream_fold (argv : list cli_option) (a : Namespace)
    (acc : option string) :
  args_stream a = match acc with Some s => PyStr s | None => PyBool true end ->
  args_stream (fold_left apply_option argv a) =
    match fold_left (fun acc o =>
                       match o with OptStream s => Some s | _ => acc end)
            argv acc with
    | Some s => PyStr s
    | None => PyBool true
    end.
Proof.
  revert a acc. induction argv as [|o argv IH]; intros a acc Ha.
  - exact Ha.
  - cbn [fold_left]. apply IH.
    destruct o as [[v|]| | | |v]; cbn; exact Ha || reflexivity.
Qed.

Lemma args_stream_parse (argv : list cli_option) :
  args_stream (parse_args argv) =
    match last_stream_value argv with
    | Some s => PyStr s
    | None => PyBool true
    end.
Proof. unfold parse_args, last_stream_value. now apply args_stream_fold. Qed.

Lemma print_response_truthy (w : world) (r : response) (model : string)
    (stream : pyval) :
  print_response w r model stream =
    print_response w r model (PyBool (truthy stream)).
Proof. unfold print_response. reflexivity. Qed.

Lemma last_stream_fold_none (argv : list cli_option) (acc : option string) :
  fold_left (fun acc o => match o with OptStream s => Some s | _ => acc end)
    argv acc = None <->
  acc = None /\ forall s, ~ In (OptStream s) argv.
Proof.
  revert acc. induction argv as [|o argv IH]; intro acc; cbn [fold_left].
  - cbn. tauto.
  - rewrite IH. cbn [In]. split.
    + intros [Ha Hn]. destruct o; try discriminate;
        (split; [exact Ha|]); intros s [E|Hin];
        try discriminate; exact (Hn s Hin).
    + intros [Ha Hn]. destruct o as [v| | | |v].
      1-4: split; [exact Ha | intros s Hin; apply (Hn s); now right].
      exfalso. apply (Hn v). now left.
Qed.

(** C10.  The value of [--stream] is kept as the string it was given and
    only tested for truthiness: without the flag it is [True]; ["false"]
    and ["0"] are true; the value is false exactly when the last [-s]
    was given the empty string.  The request carries the value as it
    is.  A true value selects the streaming path of the renderer, which
    iterates over the chunks and renders their accumulated text as
    Markdown; a false value selects the other path, which prints the
    content of the first choice of a whole completion; on both paths
    the renderer does for a value what it does for its truth value. *)
Theorem stream_flag_truthiness :
  forall (argv : list cli_option),
    let v := args_stream (parse_args argv) in
    v = match last_stream_value argv with
        | Some s => PyStr s
        | None => PyBool true
        end /\
    ((forall s, ~ In (OptStream s) argv) -> v = PyBool true) /\
    (forall s, args_stream (parse_args (argv ++ [OptStream s])) = PyStr s) /\
    (truthy v = false <-> last_stream_value argv = Some "") /\
    truthy (PyStr "false") = true /\
    truthy (PyStr "0") = true /\
    (forall (w : world) (r : response) (model : string),
       print_response w r model v = print_response w r model (PyBool (truthy v))) /\
    (forall (w : world) (key : string) (messages : list message)
            (model : string),
       getenv_DEEPSEEK_API_KEY w = Some key -> key <> "" ->
       call_deepseek w messages model v =
         ([Request key messages model v], create w messages model v)) /\
    (truthy v = true ->
     forall (w : world) (model : string) (chunks : list chunk),
       rendered (fst (print_response w (Stream chunks) model v)) =
         [concat_chunks chunks] /\
       forall columns,
         get_terminal_size_columns w = Return columns ->
         print_response w (Stream chunks) model v =
           ([Stdout (("Model(" ++ model ++ "):" ++ nl) ++ nl);
             Markdown (concat_chunks chunks);
             Stdout (times "=" columns ++ nl)],
            Return (PyStr (concat_chunks chunks)))) /\
    (truthy v = false ->
     forall (w : world) (model : string) (c : choice) (cs : list choice),
       let shown := of_option (message_content (message_of c)) in
       rendered (fst (print_response w (Completion (c :: cs)) model v)) = [] /\
       stdout_texts (fst (print_response w (Completion (c :: cs)) model v)) =
         (("Model(" ++ model ++ "):" ++ nl) ++ nl)
         :: (("    " ++ py_str shown) ++ nl)
         :: match get_terminal_size_columns w with
            | Return columns => [times "=" columns ++ nl]
            | Raise _ => []
            end /\
       forall columns,
         get_terminal_size_columns w = Return columns ->
         snd (print_response w (Completion (c :: cs)) model v) = Return shown).
Proof.
  intro argv. cbv zeta.
  split; [apply args_stream_parse|]. split; [|split; [|split]].
  - intro Hn. rewrite args_stream_parse.
    assert (last_stream_value argv = None) as ->; [|reflexivity].
    apply last_stream_fold_none. now split.
  - intro s. unfold parse_args. now rewrite fold_left_app.
  - rewrite args_stream_parse.
    destruct (last_stream_value argv) as [s|]; split;
      try reflexivity; try discriminate.
    + intro H. apply truthy_PyStr in H. now subst.
    + intro H. injection H as ->. reflexivity.
  - split; [reflexivity|]. split; [reflexivity|].
    split; [intros; apply print_response_truthy|].
    split; [intros; now apply call_deepseek_configured|].
    split.
    + intros Hv w model chunks. unfold print_response. rewrite Hv.
      cbn [iterate bind print emit ret]. rewrite accumulate_concat.
      split.
      * destruct (get_terminal_size_columns w); reflexivity.
      * intros columns ->. reflexivity.
    + intros Hv w model c cs. cbv zeta. unfold print_response. rewrite Hv.
      cbn [first_message_content bind print emit ret].
      repeat split.
      * destruct (get_terminal_size_columns w); reflexivity.
      * destruct (get_terminal_size_columns w); reflexivity.
      * intros columns ->. reflexivity.
Qed.

Lemma stream_flag_truthiness_witness :
  args_stream (parse_args [OptQuery (Some "hi"); OptDeep]) = PyBool true /\
  args_stream (parse_args [OptQuery (Some "hi"); OptStream "false"]) =
    PyStr "false" /\
  truthy (args_stream (parse_args [OptStream "0"; OptStream ""])) = false /\
  print_response Scenario.online (Stream Scenario.hello_chunks) "deepseek-chat"
    (args_stream (parse_args [OptStream "false"])) =
    ([Stdout (("Model(" ++ "deepseek-chat" ++ "):" ++ nl) ++ nl);
      Markdown "Hello"; Stdout ("====" ++ nl)],
     Return (PyStr "Hello")) /\
  snd (print_response Scenario.online
         (Completion [Edge.whole_choice (Some "Hello")]) "deepseek-chat"
         (args_stream (parse_args [OptStream ""]))) = Return (PyStr "Hello").
Proof.
  split; [|split; [|split; [|split]]].
  - apply (stream_flag_truthiness [OptQuery (Some "hi"); OptDeep]).
    intros s [E|[E|[]]]; discriminate.
  - apply (stream_flag_truthiness [OptQuery (Some "hi")]).
  - apply (stream_flag_truthiness [OptStream "0"; OptStream ""]).
    reflexivity.
  - destruct (stream_flag_truthiness [OptStream "false"])
      as (_ & _ & _ & _ & _ & _ & _ & _ & Hstream & _).
    exact (proj2 (Hstream eq_refl Scenario.online "deepseek-chat"
                    Scenario.hello_chunks) 4 eq_refl).
  - destruct (stream_flag_truthiness [OptStream ""])
      as (_ & _ & _ & _ & _ & _ & _ & _ & _ & Hwhole).
    destruct (Hwhole eq_refl Scenario.online "deepseek-chat"
                (Edge.whole_choice (Some "Hello")) []) as (_ & _ & Hret).
    exact (Hret 4 eq_refl).
Defined.

(** ** The chat loop *)

Lemma requests_app (t1 t2 : trace) :
  requests (t1 ++ t2)%list = (requests t1 ++ requests t2)%list.
Proof.
  induction t1 as [|e t1 IH]; [reflexivity|].
  destruct e; cbn [app requests]; rewrite IH; reflexivity.
Qed.

Lemma call_deepseek_unconfigured (w : world) (messages : list message)
    (model : string) (stream : pyval) :
  truthy (of_option (getenv_DEEPSEEK_API_KEY w)) = false ->
  call_deepseek w messages model stream =
    ([Stderr ("Failed to find API key." ++ nl)], Raise (SystemExit 1)).
Proof.
  intro Hk. unfold call_deepseek, get_client. now rewrite Hk.
Qed.

Lemma call_deepseek_cases (w : world) (messages : list message)
    (model : string) (stream : pyval) :
  (truthy (of_option (getenv_DEEPSEEK_API_KEY w)) = false /\
   call_deepseek w messages model stream =
     ([Stderr ("Failed to find API key." ++ nl)], Raise (SystemExit 1))) \/
  (exists key,
     getenv_DEEPSEEK_API_KEY w = Some key /\ key <> "" /\
     call_deepseek w messages model stream =
       ([Request key messages model stream],
        create w messages model stream)).
Proof.
  destruct (truthy (of_option (getenv_DEEPSEEK_API_KEY w))) eqn:Hk.
  - right. destruct (getenv_DEEPSEEK_API_KEY w) as [key|] eqn:E;
      [|discriminate].
    exists key. assert (key <> "") as Hne.
    { intros ->. discriminate. }
    repeat split; trivial. now apply call_deepseek_configured.
  - left. split; trivial. now apply call_deepseek_unconfigured.
Qed.

Lemma print_response_requests (w : world) (r : response) (model : string)
    (stream : pyval) :
  requests (fst (print_response w r model stream)) = [].
Proof.
  unfold print_response.
  destruct (truthy stream), r as [chunks|[|c cs]],
    (get_terminal_size_columns w); reflexivity.
Qed.

(** Case analysis on how a computation ends: with a value, or with one
    of the three kinds of exception. *)
Ltac case_outcome m t a :=
  let msg := fresh "msg" in
  let code := fresh "code" in
  destruct m as [t [a|[msg| |code]]].

Section ChatLoop.

Variables (w : world) (model : string) (stream : pyval).

(** A turn on an exit keyword. *)
Lemma chat_turn_keyword
    (messages : list message) (line : string) :
  mem (lower (strip line)) exit_keywords = true ->
  chat_turn w model stream messages (InputLine line) =
    ([Stdout input_prompt], (messages, Return Break)).
Proof. intro Hk. unfold chat_turn, chat_body. now rewrite Hk. Qed.

(** A turn whose call of [input] raises. *)
Lemma chat_turn_input_raises
    (messages : list message) (e : exn) :
  chat_turn w model stream messages (InputRaise e) =
    match e with
    | KeyboardInterrupt =>
        ([Stdout input_prompt; Stdout (nl ++ exit_hint ++ nl)],
         (messages, Return Continue))
    | Exception msg =>
        ([Stdout input_prompt; Stderr ("Error: " ++ msg ++ nl)],
         (messages, Return Continue))
    | SystemExit code =>
        ([Stdout input_prompt], (messages, Raise (SystemExit code)))
    end.
Proof. now destruct e. Qed.

(** A turn on any other line, by what sending and rendering do. *)
Lemma chat_turn_line
    (messages : list message) (line : string) :
  mem (lower (strip line)) exit_keywords = false ->
  let messages1 :=
    (messages ++ [Message "user" (PyStr (strip line))])%list in
  chat_turn w model stream messages (InputLine line) =
    match call_deepseek w messages1 model stream with
    | (t1, Return r) =>
        match print_response w r model stream with
        | (t2, Return reply) =>
            (Stdout input_prompt :: (t1 ++ t2)%list,
             ((messages1 ++ [Message "assistant" reply])%list,
              Return Continue))
        | (t2, Raise (Exception msg)) =>
            ((Stdout input_prompt :: (t1 ++ t2))
               ++ [Stderr ("Error: " ++ msg ++ nl)],
             (messages1, Return Continue))%list
        | (t2, Raise KeyboardInterrupt) =>
            ((Stdout input_prompt :: (t1 ++ t2))
               ++ [Stdout (nl ++ exit_hint ++ nl)],
             (messages1, Return Continue))%list
        | (t2, Raise (SystemExit code)) =>
            (Stdout input_prompt :: (t1 ++ t2)%list,
             (messages1, Raise (SystemExit code)))
        end
    | (t1, Raise (Exception msg)) =>
        ((Stdout input_prompt :: t1) ++ [Stderr ("Error: " ++ msg ++ nl)],
         (messages1, Return Continue))%list
    | (t1, Raise KeyboardInterrupt) =>
        ((Stdout input_prompt :: t1) ++ [Stdout (nl ++ exit_hint ++ nl)],
         (messages1, Return Continue))%list
    | (t1, Raise (SystemExit code)) =>
        (Stdout input_prompt :: t1, (messages1, Raise (SystemExit code)))
    end.
Proof.
  intros Hk messages1. unfold chat_turn, chat_body. rewrite Hk.
  fold messages1.
  case_outcome (call_deepseek w messages1 model stream) t1 r; try reflexivity.
  case_outcome (print_response w r model stream) t2 reply; reflexivity.
Qed.



(** The loop over more inputs continues where it stood. *)
Lemma chat_loop_app
    (pre rest : list input_event) (messages ms : list message) (t : trace) :
  chat_loop w model stream pre messages = (t, (ms, Awaiting)) ->
  chat_loop w model stream (pre ++ rest)%list messages =
    ((t ++ fst (chat_loop w model stream rest ms))%list,
     snd (chat_loop w model stream rest ms)).
Proof.
  revert messages t. induction pre as [|ev pre IH]; intros messages t H.
  - cbn in H. inversion H; subst. cbn [app].
    now destruct (chat_loop w model stream rest ms).
  - cbn [app chat_loop] in *.
    destruct (chat_turn w model stream messages ev) as [t0 [ms0 [[|]|e]]];
      try discriminate.
    destruct (chat_loop w model stream pre ms0) as [t1 [ms1 e1]] eqn:E.
    inversion H; subst.
    rewrite (IH ms0 t1 E). cbn [fst snd].
    now rewrite app_assoc.
Qed.

(** A turn whose body runs to its end sent one request, carrying the
    history and the user's text, and appended the text and the reply the
    renderer returned. *)
Lemma chat_body_complete
    (messages ms : list message) (line : string) (t : trace) :
  chat_body w model stream messages (InputLine line) =
    (t, (ms, Return Continue)) ->
  exists reply,
    ms = (messages ++ [Message "user" (PyStr (strip line));
                       Message "assistant" reply])%list /\
    requests t = [(messages ++ [Message "user" (PyStr (strip line))])%list] /\
    chat_turn w model stream messages (InputLine line) =
      (t, (ms, Return Continue)) /\
    reply_of w model stream
      (messages ++ [Message "user" (PyStr (strip line))])%list = Some reply.
Proof.
  intro H. assert (Hturn := H). unfold chat_turn. rewrite H.
  unfold chat_body in H. unfold reply_of.
  destruct (mem (lower (strip line)) exit_keywords); [discriminate|].
  set (ms1 := (messages ++ [Message "user" (PyStr (strip line))])%list) in *.
  destruct (call_deepseek_cases w ms1 model stream)
    as [[_ E]|(key & _ & _ & E)]; rewrite E in H |- *; [discriminate|].
  destruct (create w ms1 model stream) as [r|e]; [|discriminate].
  pose proof (print_response_requests w r model stream) as Hp.
  destruct (print_response w r model stream) as [t2 [reply|e]];
    [|discriminate].
  inversion H; subst. exists reply. repeat split.
  - unfold ms1. now rewrite <- app_assoc.
  - cbn in Hp |- *. now rewrite Hp.
Qed.

Lemma chat_loop_complete
    (lines : list string) (messages : list message) :
  turns_complete w model stream lines messages = true ->
  exists replies t,
    length replies = length lines /\
    chat_loop w model stream (map InputLine lines) messages =
      (t, ((messages ++ dialogue (combine (map strip lines) replies))%list,
           Awaiting)) /\
    requests t = sent messages (combine (map strip lines) replies) /\
    answered w model stream messages (combine (map strip lines) replies).
Proof.
  revert messages. induction lines as [|line lines IH]; intros messages H.
  - exists [], []. cbn. now rewrite app_nil_r.
  - cbn [turns_complete] in H.
    destruct (chat_body w model stream messages (InputLine line))
      as [t0 [ms0 [[|]|e]]] eqn:E; try discriminate.
    destruct (chat_body_complete _ _ _ _ E) as (reply & -> & Hr & Ht & Ha).
    destruct (IH _ H) as (replies & t1 & Hlen & Hloop & Hreq & Hans).
    exists (reply :: replies), (t0 ++ t1)%list. repeat split.
    + cbn. now rewrite Hlen.
    + cbn [map chat_loop]. rewrite Ht, Hloop. cbn [combine dialogue].
      now rewrite <- app_assoc.
    + rewrite requests_app, Hr, Hreq. reflexivity.
    + exact Ha.
    + exact Hans.
Qed.

End ChatLoop.

Lemma dialogue_length (turns : list (string * pyval)) :
  length (dialogue turns) = 2 * length turns.
Proof.
  induction turns as [|[u r] turns IH]; cbn [dialogue length]; lia.
Qed.

(** C7.  After [n] turns that ran to their end the history is the system
    message followed by the [n] pairs of user text and reply in turn
    order, [2 n + 1] messages and so 7 after three turns; each request
    carried the history with the user's text appended and without the
    reply to come, and each reply stored is the one the renderer
    returned for the response to that request. *)
Theorem chat_history_after_turns :
  forall (w : world) (deep : bool) (stream : pyval) (lines : list string),
    let system := Message "system" (PyStr system_prompt) in
    turns_complete w (model_name deep) stream lines [system] = true ->
    exists replies t,
      let turns := combine (map strip lines) replies in
      length replies = length lines /\
      chat_mode w deep stream (map InputLine lines) =
        (t, (system :: dialogue turns, Awaiting)) /\
      requests t = sent [system] turns /\
      answered w (model_name deep) stream [system] turns /\
      length (system :: dialogue turns) = 2 * length lines + 1 /\
      (length lines = 3 -> length (system :: dialogue turns) = 7).
Proof.
  intros w deep stream lines system H.
  destruct (chat_loop_complete _ _ _ _ _ H)
    as (replies & t & Hlen & Hloop & Hreq & Hans).
  exists replies, (chat_banner ++ t)%list. cbv zeta.
  assert (length (system :: dialogue (combine (map strip lines) replies))
          = 2 * length lines + 1) as Hl.
  { cbn [length]. rewrite dialogue_length, length_combine, length_map, Hlen.
    lia. }
  repeat split; trivial.
  - unfold chat_mode. fold system. now rewrite Hloop.
  - intro H3. rewrite Hl, H3. reflexivity.
Qed.

Lemma chat_history_after_turns_witness :
  exists replies t,
    let system := Message "system" (PyStr system_prompt) in
    let turns := combine ["hello"; "and then?"; "thanks"] replies in
    length replies = 3 /\
    chat_mode Scenario.online false (PyBool true)
      [InputLine "hello"; InputLine " and then? "; InputLine "thanks"] =
      (t, (system :: dialogue turns, Awaiting)) /\
    requests t = sent [system] turns /\
    answered Scenario.online "deepseek-chat" (PyBool true) [system] turns /\
    length (system :: dialogue turns) = 7 /\
    (3 = 3 -> length (system :: dialogue turns) = 7).
Proof.
  exact (chat_history_after_turns Scenario.online false (PyBool true)
           ["hello"; " and then? "; "thanks"] eq_refl).
Defined.




(** C4, as the code has it.  An [Exception] raised while sending or
    rendering is caught and reported on the error stream, and the loop
    goes on with the next input; the history keeps what it held before
    the turn and, after it, the user's message of the failed turn. *)
Theorem chat_turn_exception_recovered :
  forall (w : world) (model : string) (stream : pyval)
         (messages : list message) (line msg : string),
    let messages1 :=
      (messages ++ [Message "user" (PyStr (strip line))])%list in
    mem (lower (strip line)) exit_keywords = false ->
    (snd (call_deepseek w messages1 model stream) = Raise (Exception msg) \/
     exists r,
       snd (call_deepseek w messages1 model stream) = Return r /\
       snd (print_response w r model stream) = Raise (Exception msg)) ->
    exists t,
      chat_turn w model stream messages (InputLine line) =
        ((t ++ [Stderr ("Error: " ++ msg ++ nl)])%list,
         (messages1, Return Continue)) /\
      forall rest,
        chat_loop w model stream (InputLine line :: rest) messages =
          ((t ++ [Stderr ("Error: " ++ msg ++ nl)]
              ++ fst (chat_loop w model stream rest messages1))%list,
           snd (chat_loop w model stream rest messages1)).
Proof.
  intros w model stream messages line msg messages1 Hk Hraise.
  pose proof (chat_turn_line w model stream messages line Hk) as Hturn.
  cbv zeta in Hturn. fold messages1 in Hturn.
  assert (exists t,
            chat_turn w model stream messages (InputLine line) =
              ((t ++ [Stderr ("Error: " ++ msg ++ nl)])%list,
               (messages1, Return Continue))) as [t Ht].
  { destruct (call_deepseek w messages1 model stream) as [t1 o1].
    destruct Hraise as [H1|(r & H1 & H2)]; cbn [snd] in H1; subst o1.
    - now exists (Stdout input_prompt :: t1).
    - destruct (print_response w r model stream) as [t2 o2].
      cbn [snd] in H2; subst o2.
      now exists (Stdout input_prompt :: (t1 ++ t2)%list). }
  exists t. split; [exact Ht|].
  intro rest. cbn [chat_loop]. rewrite Ht.
  destruct (chat_loop w model stream rest messages1) as [t' r'].
  cbn [fst snd]. now rewrite <- app_assoc.
Qed.

Lemma chat_turn_exception_recovered_witness :
  exists t,
    chat_turn Scenario.service_down "deepseek-chat" (PyBool true)
      [Message "system" (PyStr system_prompt)] (InputLine "hello") =
      ((t ++ [Stderr ("Error: " ++ "Connection error." ++ nl)])%list,
       ([Message "system" (PyStr system_prompt);
         Message "user" (PyStr "hello")], Return Continue)) /\
    forall rest,
      chat_loop Scenario.service_down "deepseek-chat" (PyBool true)
        (InputLine "hello" :: rest) [Message "system" (PyStr system_prompt)] =
        ((t ++ [Stderr ("Error: " ++ "Connection error." ++ nl)]
            ++ fst (chat_loop Scenario.service_down "deepseek-chat"
                      (PyBool true) rest
                      [Message "system" (PyStr system_prompt);
                       Message "user" (PyStr "hello")]))%list,
         snd (chat_loop Scenario.service_down "deepseek-chat" (PyBool true)
                rest
                [Message "system" (PyStr system_prompt);
                 Message "user" (PyStr "hello")])).
Proof.
  apply (chat_turn_exception_recovered Scenario.service_down "deepseek-chat"
           (PyBool true) [Message "system" (PyStr system_prompt)]
           "hello" "Connection error.");
    [reflexivity | left; reflexivity].
Defined.

(** C4, as stated, fails: a turn whose request raises leaves the user's
    message in the history, which so differs from the history before the
    turn. *)
Lemma failed_turn_changes_history :
  let before := [Message "system" (PyStr system_prompt)] in
  let run := chat_loop Scenario.service_down "deepseek-chat" (PyBool true)
               [InputLine "hello"] before in
  diagnostics (fst run) = ["Error: " ++ "Connection error." ++ nl] /\
  snd run = ((before ++ [Message "user" (PyStr "hello")])%list, Awaiting) /\
  fst (snd run) <> before.
Proof.
  cbv zeta. repeat split; try (vm_compute; reflexivity).
  vm_compute. discriminate.
Qed.

(** ** The credential *)

Lemma ocr_requests (w : world) (image_input : list ascii) :
  requests (fst (ocr w image_input)) = [].
Proof.
  unfold ocr. destruct (easyocr_Reader w) as [[]|e]; [|reflexivity].
  cbn. destruct (readtext w image_input) as [results|[msg| |code]];
    reflexivity.
Qed.

Lemma read_contents_requests (w : world) (args : Namespace) :
  requests (fst (read_contents w args)) = [].
Proof.
  unfold read_contents.
  destruct (stdin_isatty w), (args_image args); cbn [negb];
    try reflexivity.
  apply ocr_requests.
Qed.

Lemma query_mode_unconfigured (w : world) (query : string) (contents : pyval)
    (image deep : bool) (stream : pyval) :
  truthy (of_option (getenv_DEEPSEEK_API_KEY w)) = false ->
  query_mode w query contents image deep stream =
    ([Stderr ("Failed to find API key." ++ nl)], Raise (SystemExit 1)).
Proof.
  intro Hk. unfold query_mode. now rewrite call_deepseek_unconfigured.
Qed.

Lemma chat_turn_unconfigured (w : world) (model : string) (stream : pyval)
    (messages : list message) (ev : input_event) :
  truthy (of_option (getenv_DEEPSEEK_API_KEY w)) = false ->
  requests (fst (chat_turn w model stream messages ev)) = [].
Proof.
  intro Hk. destruct ev as [line|e].
  - destruct (mem (lower (strip line)) exit_keywords) eqn:Hm.
    + now rewrite chat_turn_keyword.
    + rewrite (chat_turn_line _ _ _ _ _ Hm). cbv zeta.
      now rewrite call_deepseek_unconfigured.
  - rewrite chat_turn_input_raises. now destruct e.
Qed.

Lemma chat_loop_unconfigured (w : world) (model : string) (stream : pyval)
    (inputs : list input_event) (messages : list message) :
  truthy (of_option (getenv_DEEPSEEK_API_KEY w)) = false ->
  requests (fst (chat_loop w model stream inputs messages)) = [].
Proof.
  intro Hk. revert messages.
  induction inputs as [|ev inputs IH]; intro messages; [reflexivity|].
  cbn [chat_loop].
  pose proof (chat_turn_unconfigured w model stream messages ev Hk) as Ht.
  destruct (chat_turn w model stream messages ev) as [t [ms [[|]|e]]];
    cbn [fst] in Ht; trivial.
  specialize (IH ms).
  destruct (chat_loop w model stream inputs ms) as [t' r].
  cbn [fst] in *. now rewrite requests_app, Ht, IH.
Qed.

Lemma main_unconfigured (w : world) (argv : list cli_option)
    (inputs : list input_event) :
  truthy (of_option (getenv_DEEPSEEK_API_KEY w)) = false ->
  requests (fst (main w argv inputs)) = [].
Proof.
  intro Hk. unfold main. destruct (args_chat (parse_args argv)).
  - unfold chat_mode.
    pose proof (chat_loop_unconfigured w
                  (model_name (args_deep (parse_args argv)))
                  (args_stream (parse_args argv)) inputs
                  [Message "system" (PyStr system_prompt)] Hk) as Hl.
    destruct (chat_loop w _ _ inputs _) as [t r]. exact Hl.
  - pose proof (read_contents_requests w (parse_args argv)) as Hr.
    destruct (read_contents w (parse_args argv)) as [t [contents|e]];
      cbn [fst] in Hr; [|exact Hr].
    rewrite bind_Return. unfold answer_query.
    destruct (truthy (args_query (parse_args argv))); cbn [negb fst snd].
    + rewrite query_mode_unconfigured by exact Hk.
      cbn [fst]. now rewrite requests_app, Hr.
    + cbn. rewrite app_nil_r. exact Hr.
Qed.

(** C5.  Without the credential variable every call of the inference
    client writes the diagnostic and exits with status 1 without a
    request being made: so does the single-shot mode for every query,
    and so does chat mode at the first line it would send; no run makes
    a request.  Conversely the client exits before a request only on
    that path: the credential is absent or empty and the status is 1. *)
Theorem missing_credential_is_fatal :
  forall (w : world),
    (getenv_DEEPSEEK_API_KEY w = None ->
     (forall messages model stream,
        call_deepseek w messages model stream =
          ([Stderr ("Failed to find API key." ++ nl)], Raise (SystemExit 1))) /\
     (forall argv inputs t contents,
        args_chat (parse_args argv) = false ->
        truthy (args_query (parse_args argv)) = true ->
        read_contents w (parse_args argv) = (t, Return contents) ->
        main w argv inputs =
          ((t ++ [Stderr ("Failed to find API key." ++ nl)])%list,
           Finished (Raise (SystemExit 1)))) /\
     (forall model stream pre line rest messages t0 ms,
        chat_loop w model stream pre messages = (t0, (ms, Awaiting)) ->
        mem (lower (strip line)) exit_keywords = false ->
        chat_loop w model stream (pre ++ InputLine line :: rest)%list messages =
          ((t0 ++ [Stdout input_prompt;
                   Stderr ("Failed to find API key." ++ nl)])%list,
           ((ms ++ [Message "user" (PyStr (strip line))])%list,
            Escaped (SystemExit 1)))) /\
     (forall argv inputs, requests (fst (main w argv inputs)) = [])) /\
    (forall messages model stream code,
       snd (call_deepseek w messages model stream) = Raise (SystemExit code) ->
       requests (fst (call_deepseek w messages model stream)) = [] ->
       truthy (of_option (getenv_DEEPSEEK_API_KEY w)) = false /\
       code = 1 /\
       fst (call_deepseek w messages model stream) =
         [Stderr ("Failed to find API key." ++ nl)]).
Proof.
  intro w. split.
  - intro Hnone.
    assert (truthy (of_option (getenv_DEEPSEEK_API_KEY w)) = false) as Hk
      by now rewrite Hnone.
    split; [|split; [|split]].
    + intros. now apply call_deepseek_unconfigured.
    + intros argv inputs t contents Hchat Hq Hread.
      unfold main. rewrite Hchat, Hread, bind_Return.
      unfold answer_query. rewrite Hq. cbn [negb].
      now rewrite query_mode_unconfigured.
    + intros model stream pre line rest messages t0 ms Hpre Hm.
      rewrite (chat_loop_app _ _ _ _ _ _ _ _ Hpre).
      cbn [chat_loop]. rewrite (chat_turn_line _ _ _ _ _ Hm). cbv zeta.
      now rewrite call_deepseek_unconfigured.
    + intros. now apply main_unconfigured.
  - intros messages model stream code Hexit Hreq.
    destruct (call_deepseek_cases w messages model stream)
      as [[Hk E]|(key & _ & _ & E)]; rewrite E in *.
    + inversion Hexit. auto.
    + discriminate.
Qed.

Lemma missing_credential_is_fatal_witness :
  call_deepseek Scenario.no_credential
    [Message "user" (PyStr "hi")] "deepseek-chat" (PyBool true) =
    ([Stderr ("Failed to find API key." ++ nl)], Raise (SystemExit 1)) /\
  main Scenario.no_credential [OptQuery (Some "hi")] [] =
    ([Stderr ("Failed to find API key." ++ nl)],
     Finished (Raise (SystemExit 1))) /\
  chat_loop Scenario.no_credential "deepseek-chat" (PyBool true)
    [InputRaise KeyboardInterrupt; InputLine "hello"; InputLine "again"]
    [Message "system" (PyStr system_prompt)] =
    ([Stdout input_prompt; Stdout (nl ++ exit_hint ++ nl);
      Stdout input_prompt; Stderr ("Failed to find API key." ++ nl)],
     ([Message "system" (PyStr system_prompt);
       Message "user" (PyStr "hello")], Escaped (SystemExit 1))).
Proof.
  destruct (proj1 (missing_credential_is_fatal Scenario.no_credential)
              eq_refl) as (Hcall & Hmain & Hchat & _).
  split; [apply Hcall|split].
  - exact (Hmain [OptQuery (Some "hi")] [] [] (PyStr "")
             eq_refl eq_refl eq_refl).
  - exact (Hchat "deepseek-chat" (PyBool true) [InputRaise KeyboardInterrupt]
             "hello" [InputLine "again"]
             [Message "system" (PyStr system_prompt)]
             [Stdout input_prompt; Stdout (nl ++ exit_hint ++ nl)]
             [Message "system" (PyStr system_prompt)] eq_refl eq_refl).
Defined.

(** * Further properties of the program *)

(** ** White space and letter case *)

Ltac each_byte c :=
  destruct c as [[] [] [] [] [] [] [] []]; vm_compute;
  try reflexivity; try discriminate; auto.

Lemma space1_start (c : ascii) : space1 c = true -> continuation c = false.
Proof. each_byte c. Qed.

Lemma lead2_start (c : ascii) : byte_in [194] c = true -> continuation c = false.
Proof. each_byte c. Qed.

Lemma lead3_start (c : ascii) :
  byte_in [225] c || byte_in [226] c || byte_in [227] c = true ->
  continuation c = false.
Proof. each_byte c. Qed.

Lemma tail_85_A0 (c : ascii) : byte_in [133; 160] c = true -> continuation c = true.
Proof. each_byte c. Qed.

Lemma tail_mid (c : ascii) :
  byte_in [154] c || byte_in [128] c || byte_in [129] c = true ->
  continuation c = true.
Proof. each_byte c. Qed.

Lemma tail_last (c : ascii) :
  byte_in [128] c
  || byte_in [128; 129; 130; 131; 132; 133; 134; 135; 136; 137; 138;
              168; 169; 175] c
  || byte_in [159] c = true ->
  continuation c = true.
Proof. each_byte c. Qed.

Lemma space2_bytes (c1 c2 : ascii) :
  space2 c1 c2 = true -> continuation c1 = false /\ continuation c2 = true.
Proof.
  unfold space2. intro H. apply andb_prop in H as [H1 H2].
  split; [now apply lead2_start | now apply tail_85_A0].
Qed.

Lemma space3_bytes (c1 c2 c3 : ascii) :
  space3 c1 c2 c3 = true ->
  continuation c1 = false /\ continuation c2 = true /\ continuation c3 = true.
Proof.
  unfold space3. intro H.
  repeat split.
  - apply lead3_start.
    destruct (byte_in [225] c1), (byte_in [226] c1), (byte_in [227] c1);
      try reflexivity; cbn in H; discriminate.
  - apply tail_mid.
    destruct (byte_in [154] c2), (byte_in [128] c2), (byte_in [129] c2);
      try reflexivity; cbn in H;
      rewrite ?andb_false_r, ?andb_false_l in H; cbn in H; discriminate.
  - apply tail_last.
    destruct (byte_in [128] c3),
      (byte_in [128; 129; 130; 131; 132; 133; 134; 135; 136; 137; 138;
                168; 169; 175] c3), (byte_in [159] c3);
      try reflexivity; cbn in H;
      rewrite ?andb_false_r, ?andb_false_l in H; cbn in H; discriminate.
Qed.

(** The shapes of a string as [lstrip] reads it: empty, one of the three
    kinds of white space in front, or something else in front. *)
Lemma lstrip_shape (P : string -> Prop) :
  P "" ->
  (forall c s, space1 c = true -> P s -> P (String c s)) ->
  (forall c1 c2 s,
     space1 c1 = false -> space2 c1 c2 = true ->
     P s -> P (String c1 (String c2 s))) ->
  (forall c1 c2 c3 s,
     space1 c1 = false -> space2 c1 c2 = false -> space3 c1 c2 c3 = true ->
     P s -> P (String c1 (String c2 (String c3 s)))) ->
  (forall c1, space1 c1 = false -> P (String c1 "")) ->
  (forall c1 c2,
     space1 c1 = false -> space2 c1 c2 = false ->
     P (String c1 (String c2 ""))) ->
  (forall c1 c2 c3 s,
     space1 c1 = false -> space2 c1 c2 = false -> space3 c1 c2 c3 = false ->
     P (String c1 (String c2 (String c3 s)))) ->
  forall s, P s.
Proof.
  intros H0 H1 H2 H3 H4 H5 H6.
  assert (forall n s, String.length s <= n -> P s) as Hn.
  { induction n as [|n IH]; intros s Hl.
    - destruct s; [exact H0 | cbn in Hl; lia].
    - destruct s as [|c1 s1]; [exact H0|].
      destruct (space1 c1) eqn:E1.
      { apply H1; trivial. apply IH. cbn in Hl. lia. }
      destruct s1 as [|c2 s2]; [now apply H4|].
      destruct (space2 c1 c2) eqn:E2.
      { apply H2; trivial. apply IH. cbn in Hl. lia. }
      destruct s2 as [|c3 s3]; [now apply H5|].
      destruct (space3 c1 c2 c3) eqn:E3.
      { apply H3; trivial. apply IH. cbn in Hl. lia. }
      now apply H6. }
  intro s. now apply (Hn (String.length s)).
Qed.

Lemma lstrip_space1 (c : ascii) (s : string) :
  space1 c = true -> lstrip (String c s) = lstrip s.
Proof. intro H. cbn [lstrip]. now rewrite H. Qed.

Lemma lstrip_space2 (c1 c2 : ascii) (s : string) :
  space1 c1 = false -> space2 c1 c2 = true ->
  lstrip (String c1 (String c2 s)) = lstrip s.
Proof. intros H1 H2. cbn [lstrip]. now rewrite H1, H2. Qed.

Lemma lstrip_space3 (c1 c2 c3 : ascii) (s : string) :
  space1 c1 = false -> space2 c1 c2 = false -> space3 c1 c2 c3 = true ->
  lstrip (String c1 (String c2 (String c3 s))) = lstrip s.
Proof. intros H1 H2 H3. cbn [lstrip]. now rewrite H1, H2, H3. Qed.

Lemma lstrip_other (c1 c2 c3 : ascii) (s : string) :
  space1 c1 = false -> space2 c1 c2 = false -> space3 c1 c2 c3 = false ->
  lstrip (String c1 (String c2 (String c3 s))) =
    String c1 (String c2 (String c3 s)).
Proof. intros H1 H2 H3. cbn [lstrip]. now rewrite H1, H2, H3. Qed.

Lemma lstrip_idempotent (s : string) : lstrip (lstrip s) = lstrip s.
Proof.
  induction s using lstrip_shape.
  - reflexivity.
  - now rewrite lstrip_space1.
  - now rewrite lstrip_space2.
  - now rewrite lstrip_space3.
  - cbn [lstrip]. rewrite H. cbn [lstrip]. now rewrite H.
  - cbn [lstrip]. rewrite H, H0. cbn [lstrip]. now rewrite H, H0.
  - now rewrite !lstrip_other.
Qed.

Lemma all_space_head (b : string) : all_space b = true -> head_ok b = true.
Proof.
  unfold all_space. induction b using lstrip_shape; intro Hb; cbn [head_ok].
  - reflexivity.
  - now rewrite (space1_start c H).
  - now rewrite (proj1 (space2_bytes _ _ H0)).
  - now rewrite (proj1 (space3_bytes _ _ _ H1)).
  - cbn [lstrip] in Hb. rewrite H in Hb. discriminate.
  - cbn [lstrip] in Hb. rewrite H, H0 in Hb. discriminate.
  - rewrite lstrip_other in Hb by trivial. discriminate.
Qed.

Lemma lstrip_space_app (a s : string) :
  all_space a = true -> lstrip (a ++ s) = lstrip s.
Proof.
  unfold all_space. induction a using lstrip_shape; intro Ha; cbn [append].
  - reflexivity.
  - rewrite lstrip_space1 in * by trivial. auto.
  - rewrite lstrip_space2 in * by trivial. auto.
  - rewrite lstrip_space3 in * by trivial. auto.
  - cbn [lstrip] in Ha. rewrite H in Ha. discriminate.
  - cbn [lstrip] in Ha. rewrite H, H0 in Ha. discriminate.
  - rewrite lstrip_other in Ha by trivial. discriminate.
Qed.

Lemma lstrip_app_kept (t b : string) :
  head_ok b = true -> all_space t = false ->
  lstrip (t ++ b) = lstrip t ++ b.
Proof.
  intro Hb. unfold all_space.
  induction t using lstrip_shape; intro Ht; cbn [append].
  - discriminate.
  - rewrite !lstrip_space1 in * by trivial. auto.
  - rewrite !lstrip_space2 in * by trivial. auto.
  - rewrite !lstrip_space3 in * by trivial. auto.
  - cbn [lstrip]. rewrite H. destruct b as [|c2 b]; [reflexivity|].
    cbn [head_ok] in Hb. apply negb_true_iff in Hb.
    destruct (space2 c1 c2) eqn:E2.
    { apply space2_bytes in E2. destruct E2; congruence. }
    destruct b as [|c3 b]; [reflexivity|].
    destruct (space3 c1 c2 c3) eqn:E3; [|reflexivity].
    apply space3_bytes in E3. destruct E3 as (_ & ? & _); congruence.
  - cbn [lstrip]. rewrite H, H0. destruct b as [|c3 b]; [reflexivity|].
    cbn [head_ok] in Hb. apply negb_true_iff in Hb.
    destruct (space3 c1 c2 c3) eqn:E3; [|reflexivity].
    apply space3_bytes in E3. destruct E3 as (_ & _ & ?); congruence.
  - now rewrite !lstrip_other.
Qed.

Lemma all_space_app (t b : string) :
  all_space b = true -> all_space (t ++ b) = all_space t.
Proof.
  intro Hb. destruct (all_space t) eqn:Ht.
  - unfold all_space. rewrite (lstrip_space_app t b Ht).
    exact Hb.
  - unfold all_space.
    rewrite (lstrip_app_kept t b (all_space_head b Hb) Ht).
    unfold all_space in Ht. now destruct (lstrip t).
Qed.

Lemma rstrip_all_space (s : string) : rstrip s = "" <-> all_space s = true.
Proof.
  destruct s as [|c s]; [now split|]. cbn [rstrip].
  destruct (all_space (String c s)); split; trivial; discriminate.
Qed.

Lemma lstrip_all_space (s : string) : all_space s = true -> lstrip s = "".
Proof. unfold all_space. now destruct (lstrip s). Qed.

Lemma strip_all_space (s : string) : all_space s = true -> strip s = "".
Proof. intro H. unfold strip. now rewrite (lstrip_all_space s H). Qed.

Lemma rstrip_app_space (s b : string) :
  all_space b = true -> rstrip (s ++ b) = rstrip s.
Proof.
  intro Hb. induction s as [|c s IH].
  - now apply rstrip_all_space.
  - change (String c s ++ b) with (String c (s ++ b)). cbn [rstrip].
    change (String c (s ++ b)) with (String c s ++ b).
    now rewrite (all_space_app (String c s) b Hb), IH.
Qed.

Lemma strip_padding (a s b : string) :
  all_space a = true -> all_space b = true ->
  strip (a ++ s ++ b) = strip s.
Proof.
  intros Ha Hb. unfold strip. rewrite (lstrip_space_app a _ Ha).
  destruct (all_space s) eqn:Hs.
  - rewrite (lstrip_space_app s b Hs), (lstrip_all_space b Hb).
    now rewrite (lstrip_all_space s Hs).
  - rewrite (lstrip_app_kept s b (all_space_head b Hb) Hs).
    now apply rstrip_app_space.
Qed.

Lemma rstrip_split (s : string) :
  exists tail, s = rstrip s ++ tail /\ all_space tail = true.
Proof.
  induction s as [|c s (tail & E & Ht)]; [now exists ""|].
  cbn [rstrip]. destruct (all_space (String c s)) eqn:Hs.
  - now exists (String c s).
  - exists tail. split; trivial. cbn [append]. now rewrite <- E.
Qed.

Lemma rstrip_idempotent (s : string) : rstrip (rstrip s) = rstrip s.
Proof.
  induction s as [|c s IH]; [reflexivity|].
  cbn [rstrip]. destruct (all_space (String c s)) eqn:Hs; [reflexivity|].
  cbn [rstrip]. rewrite IH.
  destruct (rstrip_split s) as (tail & E & Ht).
  assert (all_space (String c (rstrip s)) = false) as ->; [|reflexivity].
  rewrite <- (all_space_app (String c (rstrip s)) tail Ht).
  cbn [append]. now rewrite <- E.
Qed.

Lemma append_inv_tail (a b tail : string) :
  a ++ tail = b ++ tail -> a = b.
Proof.
  intro H. assert (String.length a = String.length b) as Hl.
  { apply (f_equal String.length) in H.
    assert (forall x y, String.length (x ++ y) =
                        String.length x + String.length y) as L
      by (induction x; cbn; intros; [reflexivity | now rewrite IHx]).
    rewrite !L in H. lia. }
  revert b H Hl. induction a as [|x a IH]; intros [|y b] H Hl;
    try discriminate; [reflexivity|].
  cbn in H, Hl. injection H as -> H. f_equal. apply IH; [exact H | lia].
Qed.

Lemma strip_idempotent (s : string) : strip (strip s) = strip s.
Proof.
  unfold strip. set (t := lstrip s).
  assert (lstrip (rstrip t) = rstrip t) as ->; [|apply rstrip_idempotent].
  destruct (rstrip_split t) as (tail & E & Ht).
  destruct (all_space (rstrip t)) eqn:Hr.
  - assert (all_space t = true) as Hall.
    { rewrite E, (all_space_app _ _ Ht). exact Hr. }
    apply rstrip_all_space in Hall. now rewrite Hall.
  - pose proof (lstrip_app_kept (rstrip t) tail (all_space_head _ Ht) Hr) as K.
    rewrite <- E in K. unfold t in K at 1. rewrite lstrip_idempotent in K.
    fold t in K. rewrite E in K at 1.
    symmetry. exact (append_inv_tail _ _ _ K).
Qed.

Lemma lower_ascii_cases (c : ascii) :
  lower_ascii c = c \/
  (nat_of_ascii c < 128 /\ nat_of_ascii (lower_ascii c) < 128).
Proof.
  destruct c as [[] [] [] [] [] [] [] []];
    first [ left; reflexivity | right; vm_compute; split; lia ].
Qed.

Lemma space1_lower (c : ascii) : space1 (lower_ascii c) = space1 c.
Proof. each_byte c. Qed.

Lemma byte_in_low (ks : list nat) (c : ascii) :
  Forall (fun k => 128 <= k) ks -> nat_of_ascii c < 128 ->
  byte_in ks c = false.
Proof.
  intros Hks Hc. unfold byte_in.
  induction Hks as [|k ks Hk _ IH]; [reflexivity|].
  cbn [existsb]. rewrite IH, orb_false_r. apply Nat.eqb_neq. lia.
Qed.

Lemma byte_in_lower (ks : list nat) (c : ascii) :
  Forall (fun k => 128 <= k) ks ->
  byte_in ks (lower_ascii c) = byte_in ks c.
Proof.
  intro Hks. destruct (lower_ascii_cases c) as [->|[H1 H2]]; [reflexivity|].
  now rewrite !byte_in_low.
Qed.

Ltac high_bytes := repeat constructor; lia.

Lemma space2_lower (c1 c2 : ascii) :
  space2 (lower_ascii c1) (lower_ascii c2) = space2 c1 c2.
Proof. unfold space2. rewrite !byte_in_lower by high_bytes. reflexivity. Qed.

Lemma space3_lower (c1 c2 c3 : ascii) :
  space3 (lower_ascii c1) (lower_ascii c2) (lower_ascii c3) = space3 c1 c2 c3.
Proof. unfold space3. rewrite !byte_in_lower by high_bytes. reflexivity. Qed.

Lemma lstrip_lower (s : string) : lstrip (lower s) = lower (lstrip s).
Proof.
  induction s using lstrip_shape; cbn [lower].
  - reflexivity.
  - rewrite !lstrip_space1; rewrite ?space1_lower; trivial.
  - rewrite !lstrip_space2; rewrite ?space1_lower, ?space2_lower; trivial.
  - rewrite !lstrip_space3;
      rewrite ?space1_lower, ?space2_lower, ?space3_lower; trivial.
  - cbn [lstrip]. rewrite space1_lower, H. reflexivity.
  - cbn [lstrip]. rewrite space1_lower, space2_lower, H, H0. reflexivity.
  - rewrite !lstrip_other;
      rewrite ?space1_lower, ?space2_lower, ?space3_lower; trivial.
Qed.

Lemma all_space_lower (s : string) : all_space (lower s) = all_space s.
Proof. unfold all_space. rewrite lstrip_lower. now destruct (lstrip s). Qed.

Lemma rstrip_lower (s : string) : rstrip (lower s) = lower (rstrip s).
Proof.
  induction s as [|c s IH]; [reflexivity|].
  cbn [lower rstrip]. change (String (lower_ascii c) (lower s))
    with (lower (String c s)).
  rewrite all_space_lower. destruct (all_space (String c s)); [reflexivity|].
  cbn [lower]. now rewrite IH.
Qed.

Lemma strip_lower (s : string) : strip (lower s) = lower (strip s).
Proof. unfold strip. now rewrite lstrip_lower, rstrip_lower. Qed.

Lemma keyword_lower_strip (line k : string) :
  In k exit_keywords -> lower line = k -> lower (strip line) = k.
Proof.
  intros Hin Hl. rewrite <- strip_lower, Hl.
  destruct Hin as [<-|[<-|[<-|[]]]]; reflexivity.
Qed.

(** X1.  A line exits the chat loop whenever its letters, lower-cased,
    spell one of the three keywords, whatever white space surrounds it:
    the turn breaks, writes only the input prompt and leaves the history
    as it was. *)
Theorem keyword_any_case_and_padding_exits :
  forall (w : world) (model : string) (stream : pyval)
         (messages : list message) (a line b k : string),
    In k exit_keywords -> lower line = k ->
    all_space a = true -> all_space b = true ->
    chat_turn w model stream messages (InputLine (a ++ line ++ b)) =
      ([Stdout input_prompt], (messages, Return Break)).
Proof.
  intros w model stream messages a line b k Hin Hl Ha Hb.
  apply chat_turn_keyword. rewrite (strip_padding a line b Ha Hb).
  rewrite (keyword_lower_strip line k Hin Hl).
  destruct Hin as [<-|[<-|[<-|[]]]]; reflexivity.
Qed.

Lemma keyword_any_case_and_padding_exits_witness :
  chat_turn Scenario.online "deepseek-chat" (PyBool true)
    [Message "system" (PyStr system_prompt)]
    (InputLine (" 　" ++ "QuIt" ++ (" " ++ nl))) =
    ([Stdout input_prompt],
     ([Message "system" (PyStr system_prompt)], Return Break)).
Proof.
  apply (keyword_any_case_and_padding_exits Scenario.online "deepseek-chat"
           (PyBool true) [Message "system" (PyStr system_prompt)]
           " 　" "QuIt" (" " ++ nl) "quit");
    [right; left; reflexivity | reflexivity | reflexivity | reflexivity].
Defined.

(** X2.  A line of white space only is no exit keyword: with a
    credential the turn sends a request whose last message is a user
    message with the empty text. *)
Theorem blank_line_is_sent :
  forall (w : world) (key model : string) (stream : pyval)
         (messages : list message) (line : string),
    all_space line = true ->
    getenv_DEEPSEEK_API_KEY w = Some key -> key <> "" ->
    exists t r,
      chat_turn w model stream messages (InputLine line) =
        (Stdout input_prompt
           :: Request key (messages ++ [Message "user" (PyStr "")])%list
                model stream
           :: t, r).
Proof.
  intros w key model stream messages line Hs Hk Hne.
  assert (mem (lower (strip line)) exit_keywords = false) as Hm
    by now rewrite (strip_all_space line Hs).
  rewrite (chat_turn_line w model stream messages line Hm). cbv zeta.
  rewrite (strip_all_space line Hs).
  rewrite (call_deepseek_configured w key _ _ _ Hk Hne).
  destruct (create w _ model stream) as [r|[msg| |code]]; cbn [app]; eauto.
  destruct (print_response w r model stream) as [t2 [reply|[msg| |code]]];
    cbn [app]; eauto.
Qed.

Lemma blank_line_is_sent_witness :
  exists t r,
    chat_turn Scenario.online "deepseek-chat" (PyBool true)
      [Message "system" (PyStr system_prompt)] (InputLine " 　 ") =
      (Stdout input_prompt
         :: Request "sk-test"
              [Message "system" (PyStr system_prompt);
               Message "user" (PyStr "")]
              "deepseek-chat" (PyBool true)
         :: t, r).
Proof.
  apply (blank_line_is_sent Scenario.online "sk-test" "deepseek-chat"
           (PyBool true) [Message "system" (PyStr system_prompt)] " 　 ");
    [reflexivity | reflexivity | discriminate].
Defined.

(** ** The context of the single-shot mode *)

Lemma main_single_shot (w : world) (argv : list cli_option)
    (inputs : list input_event) (q : string) (t : trace) (contents : pyval) :
  args_chat (parse_args argv) = false ->
  args_query (parse_args argv) = PyStr q -> q <> "" ->
  read_contents w (parse_args argv) = (t, Return contents) ->
  main w argv inputs =
    ((t ++ fst (query_mode w q contents (args_image (parse_args argv))
                  (args_deep (parse_args argv))
                  (args_stream (parse_args argv))))%list,
     Finished (snd (query_mode w q contents (args_image (parse_args argv))
                      (args_deep (parse_args argv))
                      (args_stream (parse_args argv))))).
Proof.
  intros Hc Hq Hne Hr. unfold main. rewrite Hc, Hr, bind_Return.
  unfold answer_query. rewrite Hq. cbn [truthy py_str].
  apply String.eqb_neq in Hne. rewrite Hne. reflexivity.
Qed.

Lemma main_request_without_context (w : world) (argv : list cli_option)
    (inputs : list input_event) (key q : string) :
  args_chat (parse_args argv) = false ->
  args_query (parse_args argv) = PyStr q -> q <> "" ->
  read_contents w (parse_args argv) = ([], Return (PyStr "")) ->
  getenv_DEEPSEEK_API_KEY w = Some key -> key <> "" ->
  exists t o,
    main w argv inputs =
      (Request key [Message "user" (PyStr (professional_prompt ++ q))]
         (model_name (args_deep (parse_args argv)))
         (args_stream (parse_args argv)) :: t, o).
Proof.
  intros Hc Hq Hne Hr Hk Hkne.
  rewrite (main_single_shot w argv inputs q [] (PyStr "") Hc Hq Hne Hr).
  destruct (query_mode_request w key q (PyStr "")
              (args_image (parse_args argv)) (args_deep (parse_args argv))
              (args_stream (parse_args argv)) Hk Hkne) as (t & o & E).
  rewrite E. cbn. eauto.
Qed.

(** X3.  Piped text that is white space only counts as no context: the
    request of the single-shot mode carries the instruction text and the
    query, without the clause for piped text. *)
Theorem blank_piped_text_is_no_context :
  forall (w : world) (argv : list cli_option) (inputs : list input_event)
         (key q : string),
    stdin_isatty w = false ->
    all_space (stdin_read w) = true ->
    args_chat (parse_args argv) = false ->
    args_image (parse_args argv) = false ->
    args_query (parse_args argv) = PyStr q -> q <> "" ->
    getenv_DEEPSEEK_API_KEY w = Some key -> key <> "" ->
    exists t o,
      main w argv inputs =
        (Request key [Message "user" (PyStr (professional_prompt ++ q))]
           (model_name (args_deep (parse_args argv)))
           (args_stream (parse_args argv)) :: t, o).
Proof.
  intros w argv inputs key q Htty Hs Hc Hi Hq Hne Hk Hkne.
  apply main_request_without_context; trivial.
  unfold read_contents. rewrite Htty, Hi. cbn [negb].
  now rewrite (strip_all_space _ Hs).
Qed.

Lemma blank_piped_text_is_no_context_witness :
  exists t o,
    main Edge.blank_pipe [OptQuery (Some "hi"); OptDeep] [] =
      (Request "sk-test" [Message "user" (PyStr (professional_prompt ++ "hi"))]
         "deepseek-reasoner" (PyBool true) :: t, o).
Proof.
  apply (blank_piped_text_is_no_context Edge.blank_pipe
           [OptQuery (Some "hi"); OptDeep] [] "sk-test" "hi");
    try reflexivity; discriminate.
Defined.

(** X4.  An image on which the reader recognises nothing, or blanks
    only, counts as no context as well: the request carries the
    instruction text and the query, without the clause for images. *)
Theorem blank_ocr_is_no_context :
  forall (w : world) (argv : list cli_option) (inputs : list input_event)
         (key q : string) (results : list ocr_result),
    stdin_isatty w = false ->
    easyocr_Reader w = Return tt ->
    readtext w (stdin_buffer_read w) = Return results ->
    all_space (join nl (map result_text results)) = true ->
    args_chat (parse_args argv) = false ->
    args_image (parse_args argv) = true ->
    args_query (parse_args argv) = PyStr q -> q <> "" ->
    getenv_DEEPSEEK_API_KEY w = Some key -> key <> "" ->
    exists t o,
      main w argv inputs =
        (Request key [Message "user" (PyStr (professional_prompt ++ q))]
           (model_name (args_deep (parse_args argv)))
           (args_stream (parse_args argv)) :: t, o).
Proof.
  intros w argv inputs key q results Htty Hr Ht Hs Hc Hi Hq Hne Hk Hkne.
  apply main_request_without_context; trivial.
  unfold read_contents, ocr. rewrite Htty, Hi, Hr, Ht. cbn.
  now rewrite (strip_all_space _ Hs).
Qed.

Lemma blank_ocr_is_no_context_witness :
  exists t o,
    main Edge.blank_image [OptImage; OptQuery (Some "hi")] [] =
      (Request "sk-test" [Message "user" (PyStr (professional_prompt ++ "hi"))]
         "deepseek-chat" (PyBool true) :: t, o).
Proof.
  apply (blank_ocr_is_no_context Edge.blank_image
           [OptImage; OptQuery (Some "hi")] [] "sk-test" "hi"
           [ {| result_text := "　" |}; {| result_text := "" |} ]);
    try reflexivity; discriminate.
Defined.

(** X5.  The reader is built outside the [try] of [ocr]: when building
    it raises, the exception leaves [ocr] and [main] at once, whatever
    the query, with nothing written and no request made. *)
Theorem reader_failure_escapes :
  forall (w : world) (argv : list cli_option) (inputs : list input_event)
         (e : exn),
    stdin_isatty w = false ->
    easyocr_Reader w = Raise e ->
    args_chat (parse_args argv) = false ->
    args_image (parse_args argv) = true ->
    ocr w (stdin_buffer_read w) = ([], Raise e) /\
    main w argv inputs = ([], Finished (Raise e)).
Proof.
  intros w argv inputs e Htty Hr Hc Hi.
  assert (ocr w (stdin_buffer_read w) = ([], Raise e)) as Ho
    by (unfold ocr; now rewrite Hr).
  split; [exact Ho|].
  unfold main, read_contents. now rewrite Hc, Htty, Hi, Ho.
Qed.

Lemma reader_failure_escapes_witness :
  ocr Edge.reader_broken (stdin_buffer_read Edge.reader_broken) =
    ([], Raise (Exception "model files missing")) /\
  main Edge.reader_broken [OptImage; OptQuery (Some "hi")] [] =
    ([], Finished (Raise (Exception "model files missing"))).
Proof.
  apply (reader_failure_escapes Edge.reader_broken
           [OptImage; OptQuery (Some "hi")] []
           (Exception "model files missing")); reflexivity.
Defined.

(** ** Invariants of the chat loop *)

Lemma diagnostics_app (t1 t2 : trace) :
  diagnostics (t1 ++ t2)%list = (diagnostics t1 ++ diagnostics t2)%list.
Proof.
  induction t1 as [|e t1 IH]; [reflexivity|].
  destruct e; cbn [app diagnostics]; rewrite IH; reflexivity.
Qed.

Lemma call_deepseek_requests (w : world) (messages : list message)
    (model : string) (stream : pyval) :
  length (requests (fst (call_deepseek w messages model stream))) <= 1.
Proof.
  destruct (call_deepseek_cases w messages model stream)
    as [[_ E]|(key & _ & _ & E)]; rewrite E; cbn; lia.
Qed.

(** What one turn does to the history and how many requests it makes. *)
Lemma chat_turn_effect (w : world) (model : string) (stream : pyval)
    (messages : list message) (ev : input_event) :
  exists turns,
    fst (snd (chat_turn w model stream messages ev)) =
      (messages ++ flat_map render_turn turns)%list /\
    Forall (fun turn => strip (fst turn) = fst turn) turns /\
    length turns <= (if is_sent ev then 1 else 0) /\
    length (requests (fst (chat_turn w model stream messages ev)))
      <= length turns.
Proof.
  destruct ev as [line|e].
  - destruct (mem (lower (strip line)) exit_keywords) eqn:Hm.
    + exists []. rewrite (chat_turn_keyword w model stream _ _ Hm).
      cbn [is_sent]. rewrite Hm. cbn. rewrite app_nil_r.
      repeat split; trivial.
    + rewrite (chat_turn_line w model stream _ _ Hm). cbv zeta.
      cbn [is_sent]. rewrite Hm. cbn [negb].
      pose proof (call_deepseek_requests w
                    (messages ++ [Message "user" (PyStr (strip line))])%list
                    model stream) as Hc.
      case_outcome (call_deepseek w
                      (messages ++ [Message "user" (PyStr (strip line))])%list
                      model stream) t1 r; cbn [fst] in Hc.
      2-4: exists [(strip line, None)].
      2-4: cbn [fst snd flat_map render_turn app length requests];
        rewrite ?requests_app; cbn [requests length app];
        rewrite ?app_nil_r, ?length_app; cbn [length].
      2-4: repeat split;
        first [ lia | repeat constructor; cbn [fst]; apply strip_idempotent ].
      pose proof (print_response_requests w r model stream) as Hp.
      case_outcome (print_response w r model stream) t2 reply;
        cbn [fst] in Hp.
      1: exists [(strip line, Some reply)].
      2-4: exists [(strip line, None)].
      all: cbn [fst snd flat_map render_turn app length requests];
        rewrite ?requests_app; cbn [requests length app];
        rewrite ?requests_app, ?Hp, ?app_nil_r, ?length_app, <- ?app_assoc;
        cbn [app length].
      all: repeat split;
        first [ lia | repeat constructor; cbn [fst]; apply strip_idempotent ].
  - exists []. rewrite chat_turn_input_raises.
    destruct e; cbn; rewrite app_nil_r; repeat split; trivial.
Qed.

(** X7.  The loop never repeats a request: a run makes at most one
    request for each line it reads that is no exit keyword, and none for
    a line that exits or a call of [input] that raises. *)
Theorem chat_requests_bounded :
  forall (w : world) (model : string) (stream : pyval)
         (inputs : list input_event) (messages : list message),
    length (requests (fst (chat_loop w model stream inputs messages)))
      <= length (filter is_sent inputs).
Proof.
  intros w model stream inputs.
  induction inputs as [|ev inputs IH]; intro messages; [cbn; lia|].
  cbn [chat_loop filter].
  destruct (chat_turn_effect w model stream messages ev)
    as (turns1 & _ & _ & Hl & Hr).
  destruct (chat_turn w model stream messages ev) as [t [ms [[|]|e]]];
    cbn [fst snd] in Hr |- *.
  - destruct (is_sent ev); cbn [length]; lia.
  - specialize (IH ms).
    destruct (chat_loop w model stream inputs ms) as [t' r].
    cbn [fst] in *. rewrite requests_app, length_app.
    destruct (is_sent ev); cbn [length]; lia.
  - destruct (is_sent ev); cbn [length]; lia.
Qed.

(** X8.  At the prompt nothing but an exit keyword ends the chat: while
    every call of [input] raises an [Exception] (as at the end of the
    input) or is interrupted, the loop goes on calling it, the history
    stays as it was, no request is made, and each [Exception] is
    reported on the error stream. *)
Theorem input_failures_keep_loop :
  forall (w : world) (model : string) (stream : pyval)
         (inputs : list input_event) (messages : list message),
    forallb caught_at_prompt inputs = true ->
    snd (chat_loop w model stream inputs messages) = (messages, Awaiting) /\
    requests (fst (chat_loop w model stream inputs messages)) = [] /\
    diagnostics (fst (chat_loop w model stream inputs messages)) =
      prompt_diagnostics inputs.
Proof.
  intros w model stream inputs messages.
  induction inputs as [|ev inputs IH]; intro H; [now cbn|].
  cbn [forallb] in H. apply andb_prop in H as [Hev H].
  destruct (IH H) as (Hs & Hr & Hd). cbn [chat_loop].
  destruct ev as [line|[msg| |code]]; try discriminate;
    rewrite chat_turn_input_raises;
    destruct (chat_loop w model stream inputs messages) as [t r];
    cbn [fst snd] in *; repeat split; trivial.
  - cbn. now rewrite Hd.
Qed.

Lemma input_failures_keep_loop_witness :
  let run := chat_loop Scenario.online "deepseek-chat" (PyBool true)
               [InputRaise KeyboardInterrupt;
                InputRaise (Exception "EOF when reading a line");
                InputRaise (Exception "EOF when reading a line")]
               [Message "system" (PyStr system_prompt)] in
  snd run = ([Message "system" (PyStr system_prompt)], Awaiting) /\
  requests (fst run) = [] /\
  diagnostics (fst run) =
    ["Error: " ++ "EOF when reading a line" ++ nl;
     "Error: " ++ "EOF when reading a line" ++ nl].
Proof.
  exact (input_failures_keep_loop Scenario.online "deepseek-chat" (PyBool true)
           [InputRaise KeyboardInterrupt;
            InputRaise (Exception "EOF when reading a line");
            InputRaise (Exception "EOF when reading a line")]
           [Message "system" (PyStr system_prompt)] eq_refl).
Defined.

(** X9.  An interrupt while the request is under way is caught like one
    at the prompt: the hint goes to the standard output, nothing to the
    error stream, the loop goes on, and the user's message stays in the
    history. *)
Theorem interrupt_during_request_recovered :
  forall (w : world) (key model : string) (stream : pyval)
         (messages : list message) (line : string),
    let messages1 :=
      (messages ++ [Message "user" (PyStr (strip line))])%list in
    mem (lower (strip line)) exit_keywords = false ->
    getenv_DEEPSEEK_API_KEY w = Some key -> key <> "" ->
    create w messages1 model stream = Raise KeyboardInterrupt ->
    chat_turn w model stream messages (InputLine line) =
      ([Stdout input_prompt; Request key messages1 model stream;
        Stdout (nl ++ exit_hint ++ nl)],
       (messages1, Return Continue)).
Proof.
  intros w key model stream messages line messages1 Hm Hk Hne Hc.
  rewrite (chat_turn_line w model stream messages line Hm). cbv zeta.
  fold messages1.
  rewrite (call_deepseek_configured w key _ _ _ Hk Hne), Hc. reflexivity.
Qed.

Lemma interrupt_during_request_recovered_witness :
  chat_turn Edge.interrupted "deepseek-chat" (PyBool true)
    [Message "system" (PyStr system_prompt)] (InputLine "hello") =
    ([Stdout input_prompt;
      Request "sk-test" [Message "system" (PyStr system_prompt);
                         Message "user" (PyStr "hello")]
        "deepseek-chat" (PyBool true);
      Stdout (nl ++ exit_hint ++ nl)],
     ([Message "system" (PyStr system_prompt);
       Message "user" (PyStr "hello")], Return Continue)).
Proof.
  apply (interrupt_during_request_recovered Edge.interrupted "sk-test"
           "deepseek-chat" (PyBool true)
           [Message "system" (PyStr system_prompt)] "hello");
    [reflexivity | reflexivity | discriminate | reflexivity].
Defined.

(** ** The terminal *)

Lemma print_response_no_terminal (w : world) (e : exn) (r : response)
    (model : string) (stream : pyval) (reply : pyval) :
  get_terminal_size_columns w = Raise e ->
  snd (print_response w r model stream) <> Return reply.
Proof.
  intro Ht. unfold print_response. rewrite Ht.
  destruct (truthy stream), r as [chunks|[|c cs]]; cbn; discriminate.
Qed.

(** X10.  The renderer reads the terminal width after it has shown the
    answer: when the width cannot be read (the standard output is no
    terminal) the answer is still rendered or printed, then the
    exception leaves [print_response], which so never returns a reply. *)
Theorem print_response_without_terminal :
  forall (w : world) (e : exn) (model : string) (stream : pyval),
    get_terminal_size_columns w = Raise e ->
    (forall chunks,
       truthy stream = true ->
       print_response w (Stream chunks) model stream =
         ([Stdout (("Model(" ++ model ++ "):" ++ nl) ++ nl);
           Markdown (concat_chunks chunks)], Raise e)) /\
    (forall c cs,
       truthy stream = false ->
       print_response w (Completion (c :: cs)) model stream =
         ([Stdout (("Model(" ++ model ++ "):" ++ nl) ++ nl);
           Stdout (("    " ++
                    py_str (of_option (message_content (message_of c))))
                   ++ nl)], Raise e)) /\
    (forall r reply, snd (print_response w r model stream) <> Return reply).
Proof.
  intros w e model stream Ht. repeat split.
  - intros chunks Hs. unfold print_response. rewrite Hs, Ht. cbn.
    now rewrite accumulate_concat.
  - intros c cs Hs. unfold print_response. now rewrite Hs, Ht.
  - intros r reply. now apply print_response_no_terminal with (e := e).
Qed.

Lemma print_response_without_terminal_witness :
  print_response Edge.no_terminal (Stream Scenario.hello_chunks)
    "deepseek-chat" (PyBool true) =
    ([Stdout (("Model(" ++ "deepseek-chat" ++ "):" ++ nl) ++ nl);
      Markdown "Hello"],
     Raise (Exception "[Errno 25] Inappropriate ioctl for device")).
Proof.
  exact (proj1 (print_response_without_terminal Edge.no_terminal
                  (Exception "[Errno 25] Inappropriate ioctl for device")
                  "deepseek-chat" (PyBool true) eq_refl)
           Scenario.hello_chunks eq_refl).
Defined.

Lemma chat_turn_no_terminal (w : world) (e : exn) (model : string)
    (stream : pyval) (messages : list message) (ev : input_event) :
  get_terminal_size_columns w = Raise e ->
  exists users,
    fst (snd (chat_turn w model stream messages ev)) =
      (messages ++ map (fun u => Message "user" (PyStr u)) users)%list.
Proof.
  intro Ht. destruct ev as [line|x].
  - destruct (mem (lower (strip line)) exit_keywords) eqn:Hm.
    + exists []. rewrite (chat_turn_keyword w model stream _ _ Hm).
      cbn. now rewrite app_nil_r.
    + exists [strip line].
      rewrite (chat_turn_line w model stream _ _ Hm). cbv zeta.
      case_outcome (call_deepseek w
                      (messages ++ [Message "user" (PyStr (strip line))])%list
                      model stream) t1 r; try reflexivity.
      pose proof (print_response_no_terminal w e r model stream) as Hp.
      case_outcome (print_response w r model stream) t2 reply;
        try reflexivity.
      now destruct (Hp reply Ht).
  - exists []. rewrite chat_turn_input_raises.
    destruct x; cbn; now rewrite app_nil_r.
Qed.

(** X11.  Without a terminal on the standard output chat mode records no
    reply: whatever the inputs and the answers of the service, the
    history is the one the loop started from followed by user messages
    only. *)
Theorem chat_without_terminal_records_no_reply :
  forall (w : world) (e : exn) (model : string) (stream : pyval)
         (inputs : list input_event) (messages : list message),
    get_terminal_size_columns w = Raise e ->
    exists users,
      fst (snd (chat_loop w model stream inputs messages)) =
        (messages ++ map (fun u => Message "user" (PyStr u)) users)%list.
Proof.
  intros w e model stream inputs messages Ht. revert messages.
  induction inputs as [|ev inputs IH]; intro messages.
  - exists []. cbn. now rewrite app_nil_r.
  - cbn [chat_loop].
    destruct (chat_turn_no_terminal w e model stream messages ev Ht)
      as (users1 & H1).
    destruct (chat_turn w model stream messages ev) as [t [ms [[|]|x]]];
      cbn [fst snd] in H1; try (exists users1; exact H1).
    destruct (IH ms) as (users2 & H2).
    destruct (chat_loop w model stream inputs ms) as [t' [ms' e']].
    cbn [fst snd] in *. exists (users1 ++ users2)%list.
    now rewrite H2, H1, map_app, app_assoc.
Qed.

Lemma chat_without_terminal_records_no_reply_witness :
  exists users,
    fst (snd (chat_loop Edge.no_terminal "deepseek-chat" (PyBool true)
                [InputLine "hello"; InputLine "again"]
                [Message "system" (PyStr system_prompt)])) =
      ([Message "system" (PyStr system_prompt)]
         ++ map (fun u => Message "user" (PyStr u)) users)%list.
Proof.
  exact (chat_without_terminal_records_no_reply Edge.no_terminal
           (Exception "[Errno 25] Inappropriate ioctl for device")
           "deepseek-chat" (PyBool true)
           [InputLine "hello"; InputLine "again"]
           [Message "system" (PyStr system_prompt)] eq_refl).
Defined.

(** ** Failures of the single-shot mode *)

(** X12.  The single-shot mode has no handler: whatever the completion
    call raises leaves [main] right after the request, with nothing
    written about it. *)
Theorem single_shot_exception_escapes :
  forall (w : world) (argv : list cli_option) (inputs : list input_event)
         (key q : string) (t : trace) (contents : pyval) (e : exn),
    let args := parse_args argv in
    let messages :=
      [Message "user" (PyStr (prompt q contents (args_image args)))] in
    args_chat args = false ->
    args_query args = PyStr q -> q <> "" ->
    read_contents w args = (t, Return contents) ->
    getenv_DEEPSEEK_API_KEY w = Some key -> key <> "" ->
    create w messages (model_name (args_deep args)) (args_stream args)
      = Raise e ->
    main w argv inputs =
      ((t ++ [Request key messages (model_name (args_deep args))
                (args_stream args)])%list,
       Finished (Raise e)).
Proof.
  intros w argv inputs key q t contents e args messages
         Hc Hq Hne Hr Hk Hkne Hcreate.
  rewrite (main_single_shot w argv inputs q t contents Hc Hq Hne Hr).
  fold args. unfold query_mode. fold messages.
  rewrite (call_deepseek_configured w key _ _ _ Hk Hkne), Hcreate.
  reflexivity.
Qed.

Lemma single_shot_exception_escapes_witness :
  main Scenario.service_down [OptQuery (Some "hi")] [] =
    ([Request "sk-test"
        [Message "user" (PyStr (prompt "hi" (PyStr "") false))]
        "deepseek-chat" (PyBool true)],
     Finished (Raise (Exception "Connection error."))).
Proof.
  apply (single_shot_exception_escapes Scenario.service_down
           [OptQuery (Some "hi")] [] "sk-test" "hi" [] (PyStr "")
           (Exception "Connection error."));
    try reflexivity; discriminate.
Defined.

(** X13.  A credential variable that is set but empty is treated like a
    missing one: the client writes the diagnostic and exits with status
    1, and no run makes a request. *)
Theorem empty_credential_is_fatal :
  forall (w : world),
    getenv_DEEPSEEK_API_KEY w = Some "" ->
    (forall messages model stream,
       call_deepseek w messages model stream =
         ([Stderr ("Failed to find API key." ++ nl)],
          Raise (SystemExit 1))) /\
    (forall argv inputs, requests (fst (main w argv inputs)) = []).
Proof.
  intros w Hk.
  assert (truthy (of_option (getenv_DEEPSEEK_API_KEY w)) = false) as Hf
    by now rewrite Hk.
  split.
  - intros. now apply call_deepseek_unconfigured.
  - intros. now apply main_unconfigured.
Qed.

Lemma empty_credential_is_fatal_witness :
  call_deepseek Edge.empty_key [Message "user" (PyStr "hi")]
    "deepseek-chat" (PyBool true) =
    ([Stderr ("Failed to find API key." ++ nl)], Raise (SystemExit 1)) /\
  requests (fst (main Edge.empty_key [OptChat] [InputLine "hello"])) = [].
Proof.
  destruct (empty_credential_is_fatal Edge.empty_key eq_refl) as [Hc Hm].
  split; [apply Hc | apply Hm].
Defined.

(** ** What every request carries *)

Section Requests.

Variables (w : world) (key model : string) (stream : pyval).
Hypothesis Hkey : getenv_DEEPSEEK_API_KEY w = Some key.

Let ok := request_with key model stream.

Lemma print_response_events (r : response) :
  Forall ok (fst (print_response w r model stream)).
Proof.
  unfold print_response.
  destruct (truthy stream), r as [chunks|[|c cs]],
    (get_terminal_size_columns w); cbn; repeat constructor.
Qed.

Lemma call_deepseek_events (messages : list message) :
  Forall ok (fst (call_deepseek w messages model stream)).
Proof.
  destruct (call_deepseek_cases w messages model stream)
    as [[_ E]|(k & Hk & _ & E)]; rewrite E; cbn; repeat constructor.
  rewrite Hkey in Hk. now injection Hk.
Qed.

Lemma chat_turn_events (messages : list message) (ev : input_event) :
  Forall ok (fst (chat_turn w model stream messages ev)).
Proof.
  destruct ev as [line|e].
  - destruct (mem (lower (strip line)) exit_keywords) eqn:Hm.
    + rewrite (chat_turn_keyword w model stream _ _ Hm).
      cbn. repeat constructor.
    + rewrite (chat_turn_line w model stream _ _ Hm). cbv zeta.
      pose proof (call_deepseek_events
                    (messages ++ [Message "user" (PyStr (strip line))])%list)
        as Hc.
      case_outcome (call_deepseek w
                      (messages ++ [Message "user" (PyStr (strip line))])%list
                      model stream) t1 r; cbn [fst] in Hc |- *.
      2-4: repeat first [ apply Forall_app; split
                        | apply Forall_cons | apply Forall_nil
                        | exact I | exact Hc ].
      pose proof (print_response_events r) as Hp.
      case_outcome (print_response w r model stream) t2 reply;
        cbn [fst] in Hp |- *;
        repeat first [ apply Forall_app; split
                     | apply Forall_cons | apply Forall_nil
                     | exact I | exact Hc | exact Hp ].
  - rewrite chat_turn_input_raises. destruct e; cbn; repeat constructor.
Qed.

Lemma chat_loop_events (inputs : list input_event) (messages : list message) :
  Forall ok (fst (chat_loop w model stream inputs messages)).
Proof.
  revert messages. induction inputs as [|ev inputs IH]; intro messages;
    [constructor|].
  cbn [chat_loop]. pose proof (chat_turn_events messages ev) as Ht.
  destruct (chat_turn w model stream messages ev) as [t [ms [[|]|e]]];
    cbn [fst] in Ht |- *; trivial.
  specialize (IH ms). destruct (chat_loop w model stream inputs ms) as [t' r].
  cbn [fst] in *. apply Forall_app. now split.
Qed.

Lemma read_contents_events (args : Namespace) :
  Forall ok (fst (read_contents w args)).
Proof.
  unfold read_contents, ocr.
  destruct (stdin_isatty w), (args_image args); cbn [negb];
    try (cbn; constructor).
  destruct (easyocr_Reader w) as [[]|e]; [|cbn; constructor].
  cbn. destruct (readtext w (stdin_buffer_read w)) as [rs|[msg| |code]];
    cbn; repeat constructor.
Qed.

End Requests.

(** X14.  Every request a run makes, in chat mode or in the single-shot
    mode, is made with the credential of the environment, with the model
    the [-d] flag selects and with the value of [-s] as it was given. *)
Theorem requests_carry_key_model_stream :
  forall (w : world) (argv : list cli_option) (inputs : list input_event)
         (key : string),
    getenv_DEEPSEEK_API_KEY w = Some key ->
    Forall (request_with key
              (if args_deep (parse_args argv)
               then "deepseek-reasoner" else "deepseek-chat")
              (args_stream (parse_args argv)))
      (fst (main w argv inputs)).
Proof.
  intros w argv inputs key Hk. unfold main.
  destruct (args_chat (parse_args argv)).
  - unfold chat_mode.
    pose proof (chat_loop_events w key
                  (model_name (args_deep (parse_args argv)))
                  (args_stream (parse_args argv)) Hk inputs
                  [Message "system" (PyStr system_prompt)]) as Hl.
    destruct (chat_loop w _ _ inputs _) as [t r]. cbn [fst] in *.
    unfold chat_banner. repeat constructor. exact Hl.
  - pose proof (read_contents_events w key
                  (model_name (args_deep (parse_args argv)))
                  (args_stream (parse_args argv)) (parse_args argv)) as Hr.
    destruct (read_contents w (parse_args argv)) as [t [contents|e]];
      cbn [fst] in Hr; [|exact Hr].
    rewrite bind_Return. cbn [fst]. apply Forall_app. split; [exact Hr|].
    unfold answer_query.
    destruct (truthy (args_query (parse_args argv))); cbn [negb];
      [|constructor].
    unfold query_mode.
    pose proof (call_deepseek_events w key
                  (model_name (args_deep (parse_args argv)))
                  (args_stream (parse_args argv)) Hk
                  [Message "user"
                     (PyStr (prompt (py_str (args_query (parse_args argv)))
                               contents (args_image (parse_args argv))))])
      as Hc.
    destruct (call_deepseek w _ _ _) as [t1 [r|e]]; cbn [fst] in Hc;
      [|exact Hc].
    rewrite bind_Return. cbn [fst]. apply Forall_app. split; [exact Hc|].
    pose proof (print_response_events w key
                  (model_name (args_deep (parse_args argv)))
                  (args_stream (parse_args argv)) r) as Hp.
    destruct (print_response w r _ _) as [t2 [reply|e]];
      cbn [bind ret fst] in *; rewrite ?app_nil_r; exact Hp.
Qed.

Lemma requests_carry_key_model_stream_witness :
  Forall (request_with "sk-test" "deepseek-reasoner" (PyStr "0"))
    (fst (main Scenario.online [OptChat; OptStream "0"; OptDeep]
            [InputLine "hello"; InputLine "quit"])).
Proof.
  exact (requests_carry_key_model_stream Scenario.online
           [OptChat; OptStream "0"; OptDeep]
           [InputLine "hello"; InputLine "quit"] "sk-test" eq_refl).
Defined.

(** ** What the modes do not read *)

Lemma call_deepseek_same_service (w1 w2 : world) (messages : list message)
    (model : string) (stream : pyval) :
  same_service w1 w2 ->
  call_deepseek w1 messages model stream =
    call_deepseek w2 messages model stream.
Proof.
  intros (Hk & Hc & _). unfold call_deepseek, get_client.
  now rewrite Hk, Hc.
Qed.

Lemma print_response_same_service (w1 w2 : world) (r : response)
    (model : string) (stream : pyval) :
  same_service w1 w2 ->
  print_response w1 r model stream = print_response w2 r model stream.
Proof. intros (_ & _ & Ht). unfold print_response. now rewrite Ht. Qed.

Lemma chat_loop_same_service (w1 w2 : world) (model : string)
    (stream : pyval) (inputs : list input_event) (messages : list message) :
  same_service w1 w2 ->
  chat_loop w1 model stream inputs messages =
    chat_loop w2 model stream inputs messages.
Proof.
  intro H. revert messages.
  induction inputs as [|ev inputs IH]; intro messages; [reflexivity|].
  cbn [chat_loop].
  assert (chat_turn w1 model stream messages ev =
          chat_turn w2 model stream messages ev) as ->.
  { unfold chat_turn, chat_body. destruct ev as [line|e]; [|reflexivity].
    destruct (mem (lower (strip line)) exit_keywords); [reflexivity|].
    rewrite (call_deepseek_same_service w1 w2 _ _ _ H).
    destruct (call_deepseek w2 _ model stream) as [t1 [r|e]];
      [|reflexivity].
    now rewrite (print_response_same_service w1 w2 _ _ _ H). }
  destruct (chat_turn w2 model stream messages ev) as [t [ms [[|]|e]]];
    trivial.
  now rewrite IH.
Qed.

Lemma args_chat_fold (argv : list cli_option) (a : Namespace) :
  args_chat (fold_left apply_option argv a) =
    args_chat a || existsb is_chat_option argv.
Proof.
  revert a. induction argv as [|o argv IH]; intro a; cbn [fold_left existsb].
  - now rewrite orb_false_r.
  - rewrite IH. destruct o as [[v|]| | | |v]; cbn;
      try reflexivity.
    now rewrite orb_true_r.
Qed.

(** X15.  Chat mode reads neither the standard input nor an image: with
    [-c] on the command line, whatever else is there, [main] does the
    same in two worlds that agree on the credential, the completion
    service and the terminal. *)
Theorem chat_mode_ignores_stdin_and_ocr :
  forall (w1 w2 : world) (argv : list cli_option)
         (inputs : list input_event),
    In OptChat argv ->
    same_service w1 w2 ->
    main w1 argv inputs = main w2 argv inputs.
Proof.
  intros w1 w2 argv inputs Hin Hs.
  assert (args_chat (parse_args argv) = true) as Hc.
  { unfold parse_args. rewrite args_chat_fold. cbn [default_args args_chat orb].
    apply existsb_exists. exists OptChat. now split. }
  unfold main. rewrite Hc. unfold chat_mode.
  now rewrite (chat_loop_same_service w1 w2 _ _ _ _ Hs).
Qed.

Lemma chat_mode_ignores_stdin_and_ocr_witness :
  main Scenario.online [OptQuery (Some "hi"); OptImage; OptChat]
    [InputLine "hello"] =
  main Scenario.unreadable_image [OptQuery (Some "hi"); OptImage; OptChat]
    [InputLine "hello"].
Proof.
  apply (chat_mode_ignores_stdin_and_ocr Scenario.online
           Scenario.unreadable_image
           [OptQuery (Some "hi"); OptImage; OptChat] [InputLine "hello"]).
  - right; right; left; reflexivity.
  - repeat split.
Defined.

Lemma same_but_image_fold (argv : list cli_option) (a b : Namespace) :
  same_but_image a b ->
  same_but_image (fold_left apply_option argv a)
    (fold_left apply_option argv b).
Proof.
  revert a b. induction argv as [|o argv IH]; intros a b H; [exact H|].
  cbn [fold_left]. apply IH. destruct H as (Hq & Hd & Hc & Hs).
  destruct o as [[v|]| | | |v]; repeat split; cbn; trivial.
Qed.

Lemma main_same_but_image (w : world) (argv1 argv2 : list cli_option)
    (inputs : list input_event) :
  stdin_isatty w = true ->
  same_but_image (parse_args argv1) (parse_args argv2) ->
  main w argv1 inputs = main w argv2 inputs.
Proof.
  intros Htty (Hq & Hd & Hc & Hs). unfold main. rewrite Hc.
  destruct (args_chat (parse_args argv2)).
  - now rewrite Hd, Hs.
  - unfold read_contents, ret. rewrite Htty. cbn [negb].
    rewrite !bind_Return.
    unfold answer_query. rewrite Hq, Hd, Hs.
    destruct (truthy (args_query (parse_args argv2))); reflexivity.
Qed.

(** X16.  When the standard input is a terminal the [-i] flag changes
    nothing: nothing is read, no OCR is run, and the request carries the
    query without a clause for an image. *)
Theorem image_flag_ignored_on_terminal :
  forall (w : world) (pre post : list cli_option)
         (inputs : list input_event),
    stdin_isatty w = true ->
    main w (pre ++ OptImage :: post)%list inputs =
      main w (pre ++ post)%list inputs.
Proof.
  intros w pre post inputs Htty. apply main_same_but_image; [exact Htty|].
  unfold parse_args. rewrite !fold_left_app. cbn [fold_left].
  apply same_but_image_fold. repeat split.
Qed.

Lemma image_flag_ignored_on_terminal_witness :
  main Scenario.online ([OptQuery (Some "hi")] ++ OptImage :: [OptDeep]) [] =
  main Scenario.online ([OptQuery (Some "hi")] ++ [OptDeep]) [].
Proof.
  exact (image_flag_ignored_on_terminal Scenario.online
           [OptQuery (Some "hi")] [OptDeep] [] eq_refl).
Defined.

Lemma read_contents_quiet (w : world) (args : Namespace) :
  requests (fst (read_contents w args)) = [] /\
  stdout_texts (fst (read_contents w args)) = [] /\
  rendered (fst (read_contents w args)) = [].
Proof.
  unfold read_contents, ocr.
  destruct (stdin_isatty w), (args_image args); cbn [negb];
    try (cbn; tauto).
  destruct (easyocr_Reader w) as [[]|e]; [|cbn; tauto].
  cbn. destruct (readtext w (stdin_buffer_read w)) as [rs|[msg| |code]];
    cbn; tauto.
Qed.

(** X17.  Without [-c] and without a non-empty query the program
    contacts nobody and shows nothing: no request, nothing on the
    standard output, nothing rendered, although the standard input is
    still read and, with [-i], the OCR still run. *)
Theorem no_query_no_request :
  forall (w : world) (argv : list cli_option) (inputs : list input_event),
    args_chat (parse_args argv) = false ->
    truthy (args_query (parse_args argv)) = false ->
    main w argv inputs =
      (fst (read_contents w (parse_args argv)),
       Finished (match snd (read_contents w (parse_args argv)) with
                 | Return _ => Return tt
                 | Raise e => Raise e
                 end)) /\
    requests (fst (main w argv inputs)) = [] /\
    stdout_texts (fst (main w argv inputs)) = [] /\
    rendered (fst (main w argv inputs)) = [].
Proof.
  intros w argv inputs Hc Hq.
  assert (main w argv inputs =
            (fst (read_contents w (parse_args argv)),
             Finished (match snd (read_contents w (parse_args argv)) with
                       | Return _ => Return tt
                       | Raise e => Raise e
                       end))) as E.
  { unfold main. rewrite Hc.
    destruct (read_contents w (parse_args argv)) as [t [contents|e]];
      [|reflexivity].
    rewrite bind_Return. unfold answer_query. rewrite Hq.
    cbn. now rewrite app_nil_r. }
  split; [exact E|]. rewrite E. cbn [fst].
  apply read_contents_quiet.
Qed.

Lemma no_query_no_request_witness :
  main Scenario.unreadable_image [OptImage; OptDeep] [] =
    ([Stderr (("OCR 错误: " ++ "cannot identify image") ++ nl)],
     Finished (Return tt)) /\
  requests (fst (main Scenario.unreadable_image [OptImage; OptDeep] [])) = [] /\
  stdout_texts (fst (main Scenario.unreadable_image [OptImage; OptDeep] []))
    = [] /\
  rendered (fst (main Scenario.unreadable_image [OptImage; OptDeep] [])) = [].
Proof.
  exact (no_query_no_request Scenario.unreadable_image [OptImage; OptDeep] []
           eq_refl eq_refl).
Defined.

(** X18.  The single-shot mode makes at most one request, and that
    request holds exactly one message, a user message. *)
Theorem single_shot_one_request :
  forall (w : world) (argv : list cli_option) (inputs : list input_event),
    args_chat (parse_args argv) = false ->
    requests (fst (main w argv inputs)) = [] \/
    exists p,
      requests (fst (main w argv inputs)) = [[Message "user" (PyStr p)]].
Proof.
  intros w argv inputs Hc. unfold main. rewrite Hc.
  destruct (read_contents_quiet w (parse_args argv)) as (Hr & _ & _).
  destruct (read_contents w (parse_args argv)) as [t [contents|e]];
    cbn [fst] in Hr; [|now left].
  rewrite bind_Return. cbn [fst]. rewrite requests_app, Hr. cbn [app].
  unfold answer_query.
  destruct (truthy (args_query (parse_args argv))); cbn [negb];
    [|now left].
  unfold query_mode.
  destruct (call_deepseek_cases w
              [Message "user"
                 (PyStr (prompt (py_str (args_query (parse_args argv)))
                           contents (args_image (parse_args argv))))]
              (model_name (args_deep (parse_args argv)))
              (args_stream (parse_args argv)))
    as [[_ E]|(key & _ & _ & E)]; rewrite E; [now left|].
  right. eexists.
  destruct (create w _ _ _) as [r|e]; [|reflexivity].
  rewrite bind_Return. cbn [fst app requests].
  pose proof (print_response_requests w r
                (model_name (args_deep (parse_args argv)))
                (args_stream (parse_args argv))) as Hp.
  destruct (print_response w r _ _) as [t2 [reply|e]];
    cbn [bind ret fst] in *; rewrite ?requests_app, Hp; reflexivity.
Qed.

Lemma single_shot_one_request_witness :
  requests (fst (main Scenario.piped_text [OptQuery (Some "hi")] [])) = [] \/
  exists p,
    requests (fst (main Scenario.piped_text [OptQuery (Some "hi")] [])) =
      [[Message "user" (PyStr p)]].
Proof.
  exact (single_shot_one_request Scenario.piped_text [OptQuery (Some "hi")] []
           eq_refl).
Defined.

(** ** The two paths of the renderer *)

Lemma join_empty_app (l1 l2 : list string) :
  join "" (l1 ++ l2)%list = join "" l1 ++ join "" l2.
Proof.
  induction l1 as [|p l1 IH]; [reflexivity|].
  change ((p :: l1) ++ l2)%list with (p :: (l1 ++ l2))%list.
  now rewrite !join_empty_cons, IH, append_assoc.
Qed.

(** X19.  Accumulating a stream is compositional: the text of a stream
    delivered in two parts is the text of the first part followed by the
    text of the second, and a chunk without text (no choice, no content
    or the empty content) changes nothing wherever it arrives. *)
Theorem accumulate_app :
  forall (a b : list chunk) (c : chunk),
    accumulate (a ++ b)%list = accumulate a ++ accumulate b /\
    (chunk_text c = "" ->
     accumulate (a ++ c :: b)%list = accumulate (a ++ b)%list).
Proof.
  intros a b c. rewrite !accumulate_concat. unfold concat_chunks.
  rewrite !map_app, !join_empty_app. split; [reflexivity|].
  intro Hc. cbn [map]. now rewrite join_empty_cons, Hc.
Qed.

Lemma accumulate_app_witness :
  accumulate ([Scenario.text_chunk "Hel"] ++ {| chunk_choices := [] |}
                :: [Scenario.text_chunk "lo"])%list =
  accumulate ([Scenario.text_chunk "Hel"] ++ [Scenario.text_chunk "lo"])%list.
Proof.
  exact (proj2 (accumulate_app [Scenario.text_chunk "Hel"]
                  [Scenario.text_chunk "lo"] {| chunk_choices := [] |})
           eq_refl).
Defined.

(** X20.  Both paths of the renderer hand the same reply to the caller:
    a stream returns what a whole completion with the concatenated text
    as its first message returns, so the chat history does not depend on
    the [-s] value. *)
Theorem stream_and_whole_return_agree :
  forall (w : world) (model : string) (streaming whole : pyval)
         (chunks : list chunk) (c : choice) (cs : list choice)
         (columns : nat),
    truthy streaming = true -> truthy whole = false ->
    get_terminal_size_columns w = Return columns ->
    message_content (message_of c) = Some (concat_chunks chunks) ->
    snd (print_response w (Stream chunks) model streaming) =
      Return (PyStr (concat_chunks chunks)) /\
    snd (print_response w (Completion (c :: cs)) model whole) =
      Return (PyStr (concat_chunks chunks)).
Proof.
  intros w model streaming whole chunks c cs columns Hs Hw Ht Hc.
  unfold print_response. rewrite Hs, Hw, Ht. cbn. rewrite Hc.
  now rewrite accumulate_concat.
Qed.

Lemma stream_and_whole_return_agree_witness :
  snd (print_response Scenario.online (Stream Scenario.hello_chunks)
         "deepseek-chat" (PyBool true)) = Return (PyStr "Hello") /\
  snd (print_response Scenario.online
         (Completion [Edge.whole_choice (Some "Hello")])
         "deepseek-chat" (PyStr "")) = Return (PyStr "Hello").
Proof.
  exact (stream_and_whole_return_agree Scenario.online "deepseek-chat"
           (PyBool true) (PyStr "") Scenario.hello_chunks
           (Edge.whole_choice (Some "Hello")) [] 4
           eq_refl eq_refl eq_refl eq_refl).
Defined.

(** X21.  On the path without streaming a completion without content is
    printed as the text [None], and in chat mode the reply stored in the
    history is [None]. *)
Theorem whole_completion_without_content :
  forall (w : world) (key model : string) (stream : pyval)
         (messages : list message) (line : string)
         (c : choice) (cs : list choice) (columns : nat),
    let messages1 :=
      (messages ++ [Message "user" (PyStr (strip line))])%list in
    mem (lower (strip line)) exit_keywords = false ->
    truthy stream = false ->
    getenv_DEEPSEEK_API_KEY w = Some key -> key <> "" ->
    create w messages1 model stream = Return (Completion (c :: cs)) ->
    message_content (message_of c) = None ->
    get_terminal_size_columns w = Return columns ->
    chat_turn w model stream messages (InputLine line) =
      ([Stdout input_prompt; Request key messages1 model stream;
        Stdout (("Model(" ++ model ++ "):" ++ nl) ++ nl);
        Stdout (("    " ++ "None") ++ nl);
        Stdout (times "=" columns ++ nl)],
       ((messages1 ++ [Message "assistant" PyNone])%list, Return Continue)).
Proof.
  intros w key model stream messages line c cs columns messages1
         Hm Hs Hk Hne Hc Hcontent Ht.
  rewrite (chat_turn_line w model stream messages line Hm). cbv zeta.
  fold messages1.
  rewrite (call_deepseek_configured w key _ _ _ Hk Hne), Hc.
  unfold print_response. rewrite Hs, Ht. cbn. rewrite Hcontent. reflexivity.
Qed.

Lemma whole_completion_without_content_witness :
  chat_turn (Edge.whole None) "deepseek-chat" (PyStr "")
    [Message "system" (PyStr system_prompt)] (InputLine "hello") =
    ([Stdout input_prompt;
      Request "sk-test" [Message "system" (PyStr system_prompt);
                         Message "user" (PyStr "hello")]
        "deepseek-chat" (PyStr "");
      Stdout (("Model(" ++ "deepseek-chat" ++ "):" ++ nl) ++ nl);
      Stdout (("    " ++ "None") ++ nl);
      Stdout (times "=" 4 ++ nl)],
     ([Message "system" (PyStr system_prompt);
       Message "user" (PyStr "hello");
       Message "assistant" PyNone], Return Continue)).
Proof.
  apply (whole_completion_without_content (Edge.whole None) "sk-test"
           "deepseek-chat" (PyStr "")
           [Message "system" (PyStr system_prompt)] "hello"
           (Edge.whole_choice None) [] 4);
    try reflexivity; discriminate.
Defined.

(** ** What reaches the service *)

Section Conversation.

Variables (w : world) (model : string) (stream : pyval).

Lemma conversation_app (texts1 texts2 : list string) (history : list message) :
  conversation w model stream history (texts1 ++ texts2)%list =
    conversation w model stream
      (conversation w model stream history texts1) texts2.
Proof.
  revert history. induction texts1 as [|u texts1 IH]; intro history;
    [reflexivity|].
  cbn [app conversation].
  destruct (reply_of w model stream _); apply IH.
Qed.

Lemma asked_app (texts1 texts2 : list string) (history : list message) :
  asked w model stream history (texts1 ++ texts2)%list =
    (asked w model stream history texts1
       ++ asked w model stream
            (conversation w model stream history texts1) texts2)%list.
Proof.
  revert history. induction texts1 as [|u texts1 IH]; intro history;
    [reflexivity|].
  cbn [app asked]. rewrite IH. f_equal. f_equal. f_equal.
  change (u :: texts1) with ([u] ++ texts1)%list.
  now rewrite conversation_app.
Qed.

Lemma conversation_extends (texts : list string) (history : list message) :
  exists suffix,
    conversation w model stream history texts = (history ++ suffix)%list.
Proof.
  revert history. induction texts as [|u texts IH]; intro history.
  - exists []. cbn. now rewrite app_nil_r.
  - cbn [conversation].
    destruct (reply_of w model stream _) as [r|];
      [destruct (IH ((history ++ [Message "user" (PyStr u)])
                       ++ [Message "assistant" r])%list) as (suffix & ->)
      |destruct (IH (history ++ [Message "user" (PyStr u)])%list)
         as (suffix & ->)];
      rewrite <- ?app_assoc; eauto.
Qed.

Lemma sent_texts_cons (ev : input_event) (inputs : list input_event) :
  sent_texts (ev :: inputs) = (sent_texts [ev] ++ sent_texts inputs)%list.
Proof. unfold sent_texts. cbn [flat_map]. now rewrite app_nil_r. Qed.

(** What one turn does to the history and which request it makes. *)
Lemma chat_turn_conversation (messages : list message) (ev : input_event) :
  fst (snd (chat_turn w model stream messages ev)) =
    conversation w model stream messages (sent_texts [ev]) /\
  requests (fst (chat_turn w model stream messages ev)) =
    if truthy (of_option (getenv_DEEPSEEK_API_KEY w))
    then asked w model stream messages (sent_texts [ev])
    else [].
Proof.
  destruct ev as [line|e].
  - unfold sent_texts. cbn [flat_map app].
    destruct (mem (lower (strip line)) exit_keywords) eqn:Hm.
    + rewrite (chat_turn_keyword w model stream _ _ Hm). cbn.
      now destruct (truthy _).
    + rewrite (chat_turn_line w model stream _ _ Hm). cbv zeta.
      cbn [app conversation asked]. unfold reply_of.
      set (ms1 := (messages ++ [Message "user" (PyStr (strip line))])%list).
      destruct (call_deepseek_cases w ms1 model stream)
        as [[Hk E]|(key & Hk & Hne & E)]; rewrite E.
      * rewrite Hk. now split.
      * assert (truthy (of_option (getenv_DEEPSEEK_API_KEY w)) = true) as ->.
        { rewrite Hk. cbn. apply String.eqb_neq in Hne. now rewrite Hne. }
        destruct (create w ms1 model stream) as [r|[msg| |code]];
          try (now split).
        pose proof (print_response_requests w r model stream) as Hp.
        destruct (print_response w r model stream)
          as [t2 [reply|[msg| |code]]]; cbn [fst] in Hp;
          cbn [fst snd app requests]; rewrite ?requests_app, Hp;
          now split.
  - rewrite chat_turn_input_raises. unfold sent_texts.
    destruct e; cbn; now destruct (truthy _).
Qed.

Lemma chat_loop_conversation (inputs : list input_event)
    (messages : list message) :
  exists n,
    n <= length inputs /\
    (snd (snd (chat_loop w model stream inputs messages)) = Awaiting ->
     n = length inputs) /\
    fst (snd (chat_loop w model stream inputs messages)) =
      conversation w model stream messages (sent_texts (firstn n inputs)) /\
    requests (fst (chat_loop w model stream inputs messages)) =
      if truthy (of_option (getenv_DEEPSEEK_API_KEY w))
      then asked w model stream messages (sent_texts (firstn n inputs))
      else [].
Proof.
  revert messages. induction inputs as [|ev inputs IH]; intro messages.
  - exists 0. cbn. repeat split; trivial. now destruct (truthy _).
  - cbn [chat_loop].
    destruct (chat_turn_conversation messages ev) as [Hh Hr].
    destruct (chat_turn w model stream messages ev) as [t [ms [[|]|e]]];
      cbn [fst snd] in Hh, Hr.
    + exists 1. cbn [fst snd length firstn]. repeat split; trivial;
        [lia | discriminate].
    + destruct (IH ms) as (n & Hn & Ha & Hh2 & Hr2).
      destruct (chat_loop w model stream inputs ms) as [t' [ms' e']].
      cbn [fst snd] in *. exists (S n). cbn [length firstn].
      rewrite sent_texts_cons, conversation_app, asked_app, <- Hh.
      repeat split; trivial; [lia | intro H; now rewrite (Ha H) |].
      rewrite requests_app, Hr, Hr2. now destruct (truthy _).
    + exists 1. cbn [fst snd length firstn]. repeat split; trivial;
        [lia | discriminate].
Qed.

End Conversation.

(** X6.  The history is a function of the texts sent: after any inputs
    it is the history the loop started from with, for each line read
    that is no exit keyword, the user's stripped text appended and,
    when the turn got a reply from the renderer, that reply after it;
    the lines read are all the inputs when the loop still awaits input.
    So nothing is ever removed from the history. *)
Theorem chat_history_shape :
  forall (w : world) (model : string) (stream : pyval)
         (inputs : list input_event) (messages : list message),
    exists n,
      n <= length inputs /\
      (snd (snd (chat_loop w model stream inputs messages)) = Awaiting ->
       n = length inputs) /\
      fst (snd (chat_loop w model stream inputs messages)) =
        conversation w model stream messages
          (sent_texts (firstn n inputs)) /\
      exists suffix,
        fst (snd (chat_loop w model stream inputs messages)) =
          (messages ++ suffix)%list.
Proof.
  intros w model stream inputs messages.
  destruct (chat_loop_conversation w model stream inputs messages)
    as (n & Hn & Ha & Hh & _).
  exists n. repeat split; trivial.
  rewrite Hh. apply conversation_extends.
Qed.

(** X22.  Every request of the chat loop carries the whole conversation
    so far: with a credential, the requests of a run are, for each line
    read that is no exit keyword and in that order, the history as the
    turns before it left it followed by the user's stripped text of that
    line. *)
Theorem chat_requests_extend_history :
  forall (w : world) (key model : string) (stream : pyval)
         (inputs : list input_event) (messages : list message),
    getenv_DEEPSEEK_API_KEY w = Some key -> key <> "" ->
    exists n,
      n <= length inputs /\
      (snd (snd (chat_loop w model stream inputs messages)) = Awaiting ->
       n = length inputs) /\
      requests (fst (chat_loop w model stream inputs messages)) =
        asked w model stream messages (sent_texts (firstn n inputs)).
Proof.
  intros w key model stream inputs messages Hk Hne.
  destruct (chat_loop_conversation w model stream inputs messages)
    as (n & Hn & Ha & _ & Hr).
  exists n. repeat split; trivial. rewrite Hr, Hk. cbn.
  apply String.eqb_neq in Hne. now rewrite Hne.
Qed.

Lemma chat_requests_extend_history_witness :
  exists n,
    n <= 3 /\
    (snd (snd (chat_loop Scenario.online "deepseek-chat" (PyBool true)
                 [InputLine " hello "; InputRaise KeyboardInterrupt;
                  InputLine "again"]
                 [Message "system" (PyStr system_prompt)])) = Awaiting ->
     n = 3) /\
    requests (fst (chat_loop Scenario.online "deepseek-chat" (PyBool true)
                     [InputLine " hello "; InputRaise KeyboardInterrupt;
                      InputLine "again"]
                     [Message "system" (PyStr system_prompt)])) =
      asked Scenario.online "deepseek-chat" (PyBool true)
        [Message "system" (PyStr system_prompt)]
        (sent_texts (firstn n [InputLine " hello ";
                               InputRaise KeyboardInterrupt;
                               InputLine "again"])).
Proof.
  apply (chat_requests_extend_history Scenario.online "sk-test"
           "deepseek-chat" (PyBool true)
           [InputLine " hello "; InputRaise KeyboardInterrupt;
            InputLine "again"]
           [Message "system" (PyStr system_prompt)]);
    [reflexivity | discriminate].
Defined.

(** X23.  Piped text reaches the prompt stripped of the white space
    around it: with a non-empty stripped text the one message of the
    request is the instruction text, the clause for piped text, the
    stripped text and the question. *)
Theorem piped_text_prompt :
  forall (w : world) (argv : list cli_option) (inputs : list input_event)
         (key q : string),
    stdin_isatty w = false ->
    strip (stdin_read w) <> "" ->
    args_chat (parse_args argv) = false ->
    args_image (parse_args argv) = false ->
    args_query (parse_args argv) = PyStr q -> q <> "" ->
    getenv_DEEPSEEK_API_KEY w = Some key -> key <> "" ->
    exists t o,
      main w argv inputs =
        (Request key
           [Message "user"
              (PyStr (professional_prompt
                        ++ "Please answer the question based on this text:"
                        ++ nl ++ nl ++ strip (stdin_read w) ++ nl ++ nl
                        ++ "Question:" ++ q))]
           (model_name (args_deep (parse_args argv)))
           (args_stream (parse_args argv)) :: t, o).
Proof.
  intros w argv inputs key q Htty Hs Hc Hi Hq Hne Hk Hkne.
  assert (read_contents w (parse_args argv) =
            ([], Return (PyStr (strip (stdin_read w))))) as Hr
    by (unfold read_contents; now rewrite Htty, Hi).
  rewrite (main_single_shot w argv inputs q [] _ Hc Hq Hne Hr).
  destruct (query_mode_request w key q (PyStr (strip (stdin_read w)))
              (args_image (parse_args argv)) (args_deep (parse_args argv))
              (args_stream (parse_args argv)) Hk Hkne) as (t & o & E).
  rewrite E, Hi. cbn [app fst snd]. exists t, (Finished o).
  unfold prompt, original_prompt. cbn [py_eqb py_str].
  apply String.eqb_neq in Hs. now rewrite Hs.
Qed.

Lemma piped_text_prompt_witness :
  exists t o,
    main Scenario.piped_text [OptQuery (Some "what colour?")] [] =
      (Request "sk-test"
         [Message "user"
            (PyStr (professional_prompt
                      ++ "Please answer the question based on this text:"
                      ++ nl ++ nl ++ "the sky is blue" ++ nl ++ nl
                      ++ "Question:" ++ "what colour?"))]
         "deepseek-chat" (PyBool true) :: t, o).
Proof.
  apply (piped_text_prompt Scenario.piped_text
           [OptQuery (Some "what colour?")] [] "sk-test" "what colour?");
    try reflexivity; discriminate.
Defined.

(** X24.  The texts the reader recognises reach the prompt joined by
    newlines in the reader's order and stripped as a whole: with a
    non-empty result the one message of the request is the instruction
    text, the clause for images, that text and the question. *)
Theorem ocr_text_prompt :
  forall (w : world) (argv : list cli_option) (inputs : list input_event)
         (key q : string) (results : list ocr_result),
    let text := strip (join nl (map result_text results)) in
    stdin_isatty w = false ->
    easyocr_Reader w = Return tt ->
    readtext w (stdin_buffer_read w) = Return results ->
    text <> "" ->
    args_chat (parse_args argv) = false ->
    args_image (parse_args argv) = true ->
    args_query (parse_args argv) = PyStr q -> q <> "" ->
    getenv_DEEPSEEK_API_KEY w = Some key -> key <> "" ->
    exists t o,
      main w argv inputs =
        (Request key
           [Message "user"
              (PyStr (professional_prompt
                        ++ "This is ocr result of the image:"
                        ++ nl ++ nl ++ text ++ nl ++ nl
                        ++ "Question:" ++ q))]
           (model_name (args_deep (parse_args argv)))
           (args_stream (parse_args argv)) :: t, o).
Proof.
  intros w argv inputs key q results text Htty Hr Ht Hs Hc Hi Hq Hne Hk Hkne.
  assert (read_contents w (parse_args argv) = ([], Return (PyStr text))) as Hrc
    by (unfold read_contents, ocr; now rewrite Htty, Hi, Hr, Ht).
  rewrite (main_single_shot w argv inputs q [] _ Hc Hq Hne Hrc).
  destruct (query_mode_request w key q (PyStr text)
              (args_image (parse_args argv)) (args_deep (parse_args argv))
              (args_stream (parse_args argv)) Hk Hkne) as (t & o & E).
  rewrite E, Hi. cbn [app fst snd]. exists t, (Finished o).
  unfold prompt, original_prompt. cbn [py_eqb py_str].
  apply String.eqb_neq in Hs. now rewrite Hs.
Qed.

Lemma ocr_text_prompt_witness :
  exists t o,
    main Edge.readable_image [OptImage; OptQuery (Some "how much?")] [] =
      (Request "sk-test"
         [Message "user"
            (PyStr (professional_prompt
                      ++ "This is ocr result of the image:"
                      ++ nl ++ nl ++ ("Total" ++ nl ++ "42") ++ nl ++ nl
                      ++ "Question:" ++ "how much?"))]
         "deepseek-chat" (PyBool true) :: t, o).
Proof.
  apply (ocr_text_prompt Edge.readable_image
           [OptImage; OptQuery (Some "how much?")] [] "sk-test" "how much?"
           [ {| result_text := " Total" |}; {| result_text := "42 " |} ]);
    try reflexivity; discriminate.
Defined.

(** X25.  Once the reader is built, [ocr] ends in one of three ways and
    never with an [Exception]: it returns the stripped text of the
    results and writes nothing; or the reader raised an [Exception],
    which is reported on the error stream, and it returns [None]; or the
    reader raised something that is no [Exception], which passes
    through. *)
Theorem ocr_outcomes :
  forall (w : world) (image_input : list ascii),
    easyocr_Reader w = Return tt ->
    match ocr w image_input with
    | (t, Return (PyStr s)) =>
        t = [] /\ strip s = s /\
        exists results,
          readtext w image_input = Return results /\
          s = strip (join nl (map result_text results))
    | (t, Return PyNone) =>
        exists msg,
          readtext w image_input = Raise (Exception msg) /\
          t = [Stderr (("OCR 错误: " ++ msg) ++ nl)]
    | (t, Return (PyBool _)) => False
    | (t, Raise (Exception _)) => False
    | (t, Raise e) => t = [] /\ readtext w image_input = Raise e
    end.
Proof.
  intros w image_input Hr. unfold ocr. rewrite Hr. cbn [lift bind].
  destruct (readtext w image_input) as [results|[msg| |code]]; cbn.
  - repeat split; [apply strip_idempotent | now exists results].
  - now exists msg.
  - now split.
  - now split.
Qed.

Lemma ocr_outcomes_witness :
  match ocr Edge.readable_image (stdin_buffer_read Edge.readable_image) with
  | (t, Return (PyStr s)) =>
      t = [] /\ strip s = s /\
      exists results,
        readtext Edge.readable_image
          (stdin_buffer_read Edge.readable_image) = Return results /\
        s = strip (join nl (map result_text results))
  | (t, Return PyNone) =>
      exists msg,
        readtext Edge.readable_image
          (stdin_buffer_read Edge.readable_image) = Raise (Exception msg) /\
        t = [Stderr (("OCR 错误: " ++ msg) ++ nl)]
  | (t, Return (PyBool _)) => False
  | (t, Raise (Exception _)) => False
  | (t, Raise e) =>
      t = [] /\
      readtext Edge.readable_image
        (stdin_buffer_read Edge.readable_image) = Raise e
  end.
Proof.
  exact (ocr_outcomes Edge.readable_image
           (stdin_buffer_read Edge.readable_image) eq_refl).
Defined.
